(** * onboardapis: the data module and the lazy station, embedded in Rocq

    A shallow embedding of [src/onboardapis/data.py] (scheduled events,
    positions, the data connector and its polling subclass) and of
    [_LazyStation.connections] from [src/onboardapis/trains/__init__.py],
    with the properties the specification states about them.

    Conventions of the embedding:
    - a Python object is a record of its attributes; a method is a
      function taking the record first, and returning the updated record
      when it assigns to [self];
    - a call that may raise returns a [result];
    - the wall clock, the logger and the background thread are explicit
      parts of a state that is passed along. *)

From Stdlib Require Import ZArith QArith Qround Lia Lqa List.
From stdpp Require Import gmap strings.

Open Scope string_scope.

Set Warnings "-register-all".

(** ** Python values and exceptions *)

(** The values that the connector cache and a scheduled event may hold.
    [PFloat] idealises a binary64 float as a rational; [PDatetime] is a
    [datetime.datetime], kept as a timestamp. *)
Inductive PyVal : Type :=
| PNone
| PBool (b : bool)
| PInt (z : Z)
| PFloat (q : Q)
| PStr (s : string)
| PList (l : list PyVal)
| PDatetime (t : Z).

(** Python's truth value testing: [None], [False], zero, the empty string
    and the empty list are false, a datetime never is. *)
Definition truthy (v : PyVal) : bool :=
  match v with
  | PNone => false
  | PBool b => b
  | PInt z => negb (z =? 0)%Z
  | PFloat q => negb (Qeq_bool q 0)
  | PStr s => negb (String.eqb s EmptyString)
  | PList l => match l with [] => false | _ :: _ => true end
  | PDatetime _ => true
  end.

(** [a or b] *)
Definition py_or (a b : PyVal) : PyVal := if truthy a then a else b.

Inductive PyExc : Type :=
| TypeError
| KeyError (key : string)
| RuntimeError (msg : string)
| APIConnectionError (msg : string)
| OtherError (name : string).

Inductive result (A : Type) : Type :=
| Ok (a : A)
| Raise (e : PyExc).
Arguments Ok {A} a.
Arguments Raise {A} e.

Definition is_ok {A} (r : result A) : bool :=
  match r with Ok _ => true | Raise _ => false end.

#[export] Instance result_ret : MRet result := fun A a => Ok a.
#[export] Instance result_bind : MBind result := fun A B f r =>
  match r with Ok a => f a | Raise e => Raise e end.

(** [float(x)] on an optional number: [float(None)] raises [TypeError]. *)
Definition py_float (x : option Q) : result Q :=
  match x with
  | Some q => Ok q
  | None => Raise TypeError
  end.

(** ** ScheduledEvent *)

Module ScheduledEvent.

Record t : Type := mk { scheduled : PyVal; actual : PyVal }.

(** [ScheduledEvent.__init__(self, scheduled, actual=None)]:
    [self.actual = actual or scheduled]. *)
Definition __init__ (scheduled : PyVal) (actual : PyVal) : t :=
  {| scheduled := scheduled; actual := py_or actual scheduled |}.

(** The call [ScheduledEvent(x)], with [actual] left at its default. *)
Definition new1 (scheduled : PyVal) : t := __init__ scheduled PNone.

End ScheduledEvent.

(** ** Position *)

Module Position.

(** The constructor's type hints make latitude and longitude numbers and
    default altitude and heading to [None]. *)
Record t : Type := mk {
  _latitude : Q;
  _longitude : Q;
  _altitude : option Q;
  _heading : option Q
}.

Definition __init__ (latitude longitude : Q) (altitude heading : option Q) : t :=
  {| _latitude := latitude; _longitude := longitude;
     _altitude := altitude; _heading := heading |}.

Definition latitude (self : t) : result Q := py_float (Some (_latitude self)).
Definition longitude (self : t) : result Q := py_float (Some (_longitude self)).
(** [return float(self._altitude)] *)
Definition altitude (self : t) : result Q := py_float (_altitude self).
(** [return float(self._heading)] *)
Definition bearing (self : t) : result Q := py_float (_heading self).

Section Str.

(** [coordinates_decimal_to_dms] lives in the [conversions] module, and
    number formatting is Python's own: both are taken as given. *)
Variable coordinates_decimal_to_dms :
  Q * Q -> result ((Z * Z * Q) * (Z * Z * Q)).
Variable fmt_int : Z -> string.
Variable fmt_fixed : nat -> Q -> string.

Definition dquote : string := String (Ascii.ascii_of_nat 34) EmptyString.

Definition fmt_dms (d : Z * Z * Q) (pos neg : string) : string :=
  let '(deg, min, sec) := d in
  fmt_int (Z.abs deg) ++ "°" ++ fmt_int min ++ "'" ++ fmt_fixed 3 sec
    ++ dquote ++ (if (0 <=? deg)%Z then pos else neg).

(** [Position.__str__]. The conditional parts read the accessor once for
    the test [self.altitude is not None] and once more to format it; the
    accessor returns a float or raises, so the test itself never sees
    [None]. *)
Definition __str__ (self : t) : result string :=
  lat ← latitude self;
  lon ← longitude self;
  '(dlat, dlon) ← coordinates_decimal_to_dms (lat, lon);
  let head := fmt_dms dlat "N" "S" ++ " " ++ fmt_dms dlon "E" "W" in
  _ ← altitude self;
  alt ← altitude self;
  let with_alt := head ++ " " ++ fmt_fixed 2 alt ++ "m" in
  _ ← bearing self;
  hdg ← bearing self;
  mret (with_alt ++ " " ++ fmt_fixed 2 hdg ++ "°").

End Str.

End Position.

(** ** DataConnector *)

(** The connector classes of [data.py]. *)
Inductive ConnectorClass : Type :=
| DataConnectorC
| PollingDataConnectorC
| RESTDataConnectorC
| GraphQLDataConnectorC
| WebsocketDataConnectorC
| SocketIODataConnectorC
| DummyDataConnectorC.

Module DataConnector.

(** A connector object: its class and its [_data], a [DataStorage]
    (a [UserDict]) keyed by strings. *)
Record t : Type := mk {
  __class__ : ConnectorClass;
  _data : gmap string PyVal
}.

(** [DataConnector.__init__]: [self._data = DataStorage()]. *)
Definition __init__ (self : t) : t :=
  {| __class__ := __class__ self; _data := ∅ |}.

(** Creating an object of class [c]. *)
Definition new (c : ConnectorClass) : t :=
  __init__ {| __class__ := c; _data := ∅ |}.

(** [dict.get(key, default)] *)
Definition dict_get (d : gmap string PyVal) (key : string) (dflt : PyVal) : PyVal :=
  match d !! key with
  | Some v => v
  | None => dflt
  end.

(** [DataConnector.load]: [return self._data.get(key, __default)]. *)
Definition base_load (self : t) (key : string) (dflt : PyVal) : result PyVal :=
  Ok (dict_get (_data self) key dflt).

(** [DummyDataConnector.load]: [return 'Dummy value']. *)
Definition dummy_load (self : t) (key : string) (dflt : PyVal) : result PyVal :=
  Ok (PStr "Dummy value").

(** [connector.load(key, default)], resolved on the object's class:
    only [DummyDataConnector] overrides the method. *)
Definition load (self : t) (key : string) (dflt : PyVal) : result PyVal :=
  match __class__ self with
  | DummyDataConnectorC => dummy_load self key dflt
  | _ => base_load self key dflt
  end.

(** [DataConnector.store]: [self._data[key] = value]. *)
Definition store (self : t) (key : string) (value : PyVal) : t :=
  {| __class__ := __class__ self; _data := <[key := value]> (_data self) |}.

(** [DataConnector.__getitem__]: [return self._data[item]], a [KeyError]
    when the key is absent. *)
Definition __getitem__ (self : t) (item : string) : result PyVal :=
  match _data self !! item with
  | Some v => Ok v
  | None => Raise (KeyError item)
  end.

(** [DataConnector.__setitem__] *)
Definition __setitem__ (self : t) (key : string) (value : PyVal) : t :=
  store self key value.

(** A history of [store] calls, oldest first, applied to a connector. *)
Definition store_all (h : list (string * PyVal)) (self : t) : t :=
  fold_left (fun c kv => store c (fst kv) (snd kv)) h self.

(** The value most recently stored under [key] in a history. *)
Fixpoint last_stored (key : string) (h : list (string * PyVal)) : option PyVal :=
  match h with
  | [] => None
  | (k, v) :: h' =>
      match last_stored key h' with
      | Some w => Some w
      | None => if String.eqb k key then Some v else None
      end
  end.

End DataConnector.

(** ** _LazyStation *)

Module LazyStation.

(** [ConnectingTrain] *)
Record ConnectingTrain : Type := mkTrain {
  train_type : option string;
  line_number : option string;
  platform : option ScheduledEvent.t;
  destination : option string;
  departure : option ScheduledEvent.t
}.

(** What [connections] holds: a list of trains or [None]. *)
Definition Connections : Type := option (list ConnectingTrain).

(** One invocation of the callback: how it ends and how long it took. *)
Record Fetched : Type := mkFetched {
  f_result : result Connections;
  f_elapsed : Q
}.

(** The callback [lazy_func]. It is an arbitrary Python callable, so its
    answer may change from call to call: it is given the station id and
    the number of calls made before this one. *)
Definition LazyFunc : Type := PyVal -> nat -> Fetched.

(** What a read of the attribute can touch outside the station: the
    clock behind [time.time()], in seconds, and the ids [lazy_func] was
    invoked with, newest first. *)
Record World : Type := mkWorld {
  clock : Q;
  calls : list PyVal
}.

(** The attributes of a [_LazyStation] that [connections] uses. *)
Record t : Type := mk {
  _id : PyVal;
  _name : string;
  _connections : Connections;
  _lazy_func : option LazyFunc;
  _cache_valid_until : Q;
  _cache_timeout : Z
}.

(** [_LazyStation.__init__(station_id, name, connections=None,
    lazy_func=None, _cache_timeout=60)] *)
Definition __init__ (station_id : PyVal) (name : string) (connections : Connections)
    (lazy_func : option LazyFunc) (cache_timeout : Z) : t :=
  {| _id := station_id; _name := name; _connections := connections;
     _lazy_func := lazy_func; _cache_valid_until := 0;
     _cache_timeout := cache_timeout |}.

(** [a > b] on times *)
Definition Qgtb (a b : Q) : bool := negb (Qle_bool a b).

(** Time passing between two reads. *)
Definition tick (d : Q) (w : World) : World :=
  {| clock := clock w + d; calls := calls w |}.

(** The inner function [request_data]: call [lazy_func(self.id)], store
    the answer, set the expiry from a fresh clock reading. An exception
    of the callback leaves the station as it was. *)
Definition request_data (f : LazyFunc) (self : t) (w : World)
  : result Connections * t * World :=
  let out := f (_id self) (length (calls w)) in
  let w1 := {| clock := clock w + f_elapsed out; calls := _id self :: calls w |} in
  match f_result out with
  | Raise e => (Raise e, self, w1)
  | Ok connections =>
      (Ok connections,
       {| _id := _id self; _name := _name self; _connections := connections;
          _lazy_func := _lazy_func self;
          _cache_valid_until := clock w1 + inject_Z (_cache_timeout self);
          _cache_timeout := _cache_timeout self |},
       w1)
  end.

(** The property [_LazyStation.connections]. *)
Definition connections (self : t) (w : World) : result Connections * t * World :=
  match _lazy_func self with
  | None => (Ok (_connections self), self, w)
  | Some f =>
      if Qgtb (clock w) (_cache_valid_until self) then request_data f self w
      else
        match _connections self with
        | None => request_data f self w
        | Some _ => (Ok (_connections self), self, w)
        end
  end.

End LazyStation.

(** ** PollingDataConnector *)

Module Polling.

(** *** The thread part of the object

    [threading.Thread] is Python's own. What is kept of it: the
    constructor arguments [target], [name] and [daemon] ([None] where the
    caller left the default), and where the thread of this handle stands.
    [start()] makes the thread run [Thread.run], which calls the target
    if there is one; [is_alive()] holds from [start()] until the thread
    has finished; [join()] blocks while it is alive. *)

(** The one callable ever passed as a target: the bound method
    [self._run]. *)
Inductive Target : Type := RunLoop.

(** Where the background thread stands inside [Thread.run] and [_run]. *)
Inductive pc : Type :=
| PBoot                              (* in [Thread.run], before the target *)
| PWhile (counter : Z)               (* at the test of [while self._running] *)
| PSleep (counter : Z)               (* inside [time.sleep(1 / tps)] *)
| PRefresh (target : Z) (n : nat).   (* inside the [n]-th [self.refresh()] *)

Inductive RunState : Type :=
| NotStarted
| Alive (p : pc)
| Finished (exc : option PyExc).

Record Thread : Type := mkThread {
  _target : option Target;
  _name : option string;
  _daemonic : option bool;
  run_state : RunState
}.

(** [threading.Thread.__init__(self, target=..., name=..., daemon=...)] *)
Definition Thread_init (target : option Target) (name : option string)
    (daemon : option bool) : Thread :=
  mkThread target name daemon NotStarted.

Definition is_alive (t : Thread) : bool :=
  match run_state t with Alive _ => true | _ => false end.

(** *** The connector object *)

Record t : Type := mk {
  dc : DataConnector.t;
  th : Thread;
  API_URL : string;
  _running : bool;
  _connected : bool
}.

Definition set_dc (d : DataConnector.t) (o : t) : t :=
  mk d (th o) (API_URL o) (_running o) (_connected o).
Definition set_th (h : Thread) (o : t) : t :=
  mk (dc o) h (API_URL o) (_running o) (_connected o).
Definition set_running (b : bool) (o : t) : t :=
  mk (dc o) (th o) (API_URL o) b (_connected o).
Definition set_connected (b : bool) (o : t) : t :=
  mk (dc o) (th o) (API_URL o) (_running o) b.
Definition set_run (r : RunState) (o : t) : t :=
  set_th (mkThread (_target (th o)) (_name (th o)) (_daemonic (th o)) r) o.

Definition runner_name (url : string) : string :=
  "DataConnector-Runner for '" ++ url ++ "'".

(** [PollingDataConnector.__init__] *)
Definition __init__ (self : t) : t :=
  set_connected false
    (set_running false
       (set_th (Thread_init (Some RunLoop) (Some (runner_name (API_URL self))) (Some true))
          (set_dc (DataConnector.__init__ (dc self)) self))).

(** Creating a connector of class [c] whose [API_URL] is [url]. *)
Definition new (c : ConnectorClass) (url : string) : t :=
  __init__ (mk (DataConnector.mk c ∅) (Thread_init None None None) url false false).

(** The property [connected]: [self._connected and self._running]. *)
Definition connected (self : t) : bool := _connected self && _running self.

(** The parts of [reset()] after its [self.stop()]:
    [threading.Thread.__init__(self)], [DataConnector.__init__(self)],
    [self._connected = False]. *)
Definition reset_thread (self : t) : t := set_th (Thread_init None None None) self.
Definition reset_data (self : t) : t := set_dc (DataConnector.__init__ (dc self)) self.
Definition reset_flag (self : t) : t := set_connected false self.

(** [stop()] and [reset()] on a connector whose thread is not alive, where
    [join()] is skipped and nothing blocks. *)
Definition stop_idle (self : t) : t := set_running false self.
Definition reset_idle (self : t) : t :=
  reset_flag (reset_data (reset_thread (stop_idle self))).

(** *** The timing arithmetic of [_run] *)

(** [tps = 20], thread join checks per second *)
Definition tps : Z := 20.
(** [int(1e9)], one second in nanoseconds *)
Definition second_ns : Z := 1000000000.
(** What one [time.sleep(1 / tps)] adds to the clock. *)
Definition sleep_ns : Z := 50000000.

(** [max(a, b)] of two numbers: [b] only when it is greater. *)
Definition py_max (a b : Q) : Q := if Qle_bool b a then a else b.

(** [int(x)] truncates towards zero. *)
Definition py_int (x : Q) : Z := if Qle_bool 0 x then Qfloor x else Qceiling x.

(** [(tps - int(max(0.0, (target - time.time_ns()) / 1e9) * tps)) % tps],
    with the float arithmetic idealised to exact rationals. *)
Definition next_counter (target now : Z) : Z :=
  Z.modulo
    (tps - py_int (py_max 0 (inject_Z (target - now) / inject_Z second_ns) * inject_Z tps))
    tps.

(** *** Calls, events and the state of a run *)

(** What [refresh()] does is up to the subclass, and may differ from call
    to call. An invocation is described by the [store] calls it made,
    the time it took and how it ended. *)
Inductive Outcome : Type :=
| Returns
| Raises (e : PyExc).

Record RefreshCall : Type := mkRefresh {
  r_stores : list (string * PyVal);
  r_elapsed : Z;
  r_outcome : Outcome
}.

(** The calls a user of the connector makes from the foreground. *)
Inductive Call : Type :=
| CStart
| CStop
| CReset
| CStore (key : string) (value : PyVal).

Inductive Event : Type :=
| EvCall (c : Call)                      (* the foreground enters a call *)
| EvReturn (c : Call)                    (* the call returns *)
| EvRaise (c : Call) (e : PyExc)         (* the call raises *)
| EvRefresh (n : nat)                    (* the loop invokes [refresh()] *)
| EvStore (key : string) (value : PyVal) (* a [store] made by that [refresh()] *)
| EvSleep                                (* the loop enters [time.sleep] *)
| EvLog (msg : string)                   (* the loop logs an error *)
| EvExit (exc : option PyExc).           (* the thread finishes *)

(** Where the foreground stands inside [stop()]. *)
Inductive StopPC : Type :=
| StopClear     (* before [self._running = False] *)
| StopCheck     (* before [if self.is_alive()] *)
| StopJoin      (* inside [self.join()] *)
| StopRet.      (* about to return *)

(** Where the foreground stands inside [reset()]. *)
Inductive ResetPC : Type :=
| ResetStop (p : StopPC)   (* inside its [self.stop()] *)
| ResetThread              (* before [threading.Thread.__init__(self)] *)
| ResetData                (* before [DataConnector.__init__(self)] *)
| ResetFlag                (* before [self._connected = False] *)
| ResetRet.

Inductive MainPC : Type :=
| Idle
| InStart
| InStop (p : StopPC)
| InReset (p : ResetPC)
| InStore (key : string) (value : PyVal).

Record Sys : Type := mkSys {
  obj : t;                 (* the connector, shared by both threads *)
  now : Z;                 (* the clock behind [time.time_ns()] *)
  log : list string;       (* errors logged, newest first *)
  ncalls : nat;            (* invocations of [refresh()] so far *)
  main : MainPC;           (* the foreground thread *)
  todo : list Call;        (* the calls it has yet to make *)
  trace : list Event       (* what happened, newest first *)
}.

Definition upd_obj (f : t -> t) (s : Sys) : Sys :=
  mkSys (f (obj s)) (now s) (log s) (ncalls s) (main s) (todo s) (trace s).
Definition tick (d : Z) (s : Sys) : Sys :=
  mkSys (obj s) (now s + d) (log s) (ncalls s) (main s) (todo s) (trace s).
Definition emit (e : Event) (s : Sys) : Sys :=
  mkSys (obj s) (now s) (log s) (ncalls s) (main s) (todo s) (e :: trace s).
Definition log_error (msg : string) (s : Sys) : Sys :=
  emit (EvLog msg)
    (mkSys (obj s) (now s) (msg :: log s) (ncalls s) (main s) (todo s) (trace s)).
Definition count_call (s : Sys) : Sys :=
  mkSys (obj s) (now s) (log s) (S (ncalls s)) (main s) (todo s) (trace s).
Definition set_main (p : MainPC) (s : Sys) : Sys :=
  mkSys (obj s) (now s) (log s) (ncalls s) p (todo s) (trace s).
Definition set_todo (l : list Call) (s : Sys) : Sys :=
  mkSys (obj s) (now s) (log s) (ncalls s) (main s) l (trace s).

(** The [store] calls of one [refresh()], oldest first. *)
Fixpoint do_stores (l : list (string * PyVal)) (s : Sys) : Sys :=
  match l with
  | [] => s
  | (k, v) :: l' =>
      do_stores l'
        (emit (EvStore k v) (upd_obj (fun o => set_dc (DataConnector.store (dc o) k v) o) s))
  end.

Section Run.

(** Which exceptions other than an [APIConnectionError] itself the
    clause [except APIConnectionError] catches: those of its subclasses.
    The classes are declared in the package's [exceptions] module, whose
    declarations are taken as given here: for an exception [OtherError
    name], [Some text] says that its class is a subclass of
    [APIConnectionError], [text] being what [f"{e}"] renders of it, and
    [None] says that it is not. *)
Variable connection_subclass : string -> option string.

(** [except APIConnectionError as e]: whether the clause catches [e],
    and if so the text that is logged. [APIConnectionError] is caught,
    Python's own exceptions are not, and an exception of the package is
    caught when its class is a subclass. *)
Definition caught (e : PyExc) : option string :=
  match e with
  | APIConnectionError msg => Some msg
  | OtherError name => connection_subclass name
  | TypeError | KeyError _ | RuntimeError _ => None
  end.

(** The behaviour of the subclass's [refresh()], call by call. *)
Variable refresh : nat -> RefreshCall.

(** One step of the background thread. *)
Definition loop_step (s : Sys) : Sys :=
  let o := obj s in
  match run_state (th o) with
  | Alive PBoot =>
      (* Thread.run: [if self._target is not None: self._target()];
         [_run] then sets [tps] and [counter = 0] *)
      match _target (th o) with
      | Some RunLoop => upd_obj (set_run (Alive (PWhile 0))) s
      | None => emit (EvExit None) (upd_obj (set_run (Finished None)) s)
      end
  | Alive (PWhile counter) =>
      if _running o then
        if negb (counter =? 0)%Z then
          (* [time.sleep(1 / tps)] *)
          emit EvSleep (upd_obj (set_run (Alive (PSleep counter))) s)
        else
          (* [target = time.time_ns() + int(1e9)], then [self.refresh()] *)
          emit (EvRefresh (ncalls s))
            (count_call
               (upd_obj (set_run (Alive (PRefresh (now s + second_ns) (ncalls s)))) s))
      else emit (EvExit None) (upd_obj (set_run (Finished None)) s)
  | Alive (PSleep counter) =>
      (* [counter = (counter + 1) % tps; continue] *)
      tick sleep_ns (upd_obj (set_run (Alive (PWhile (Z.modulo (counter + 1) tps)))) s)
  | Alive (PRefresh target n) =>
      let call := refresh n in
      let s1 := tick (r_elapsed call) (do_stores (r_stores call) s) in
      match r_outcome call with
      | Returns =>
          (* [self._connected = True], then the new [counter] *)
          upd_obj
            (fun o => set_run (Alive (PWhile (next_counter target (now s1))))
                        (set_connected true o))
            s1
      | Raises e =>
          match caught e with
          | Some msg =>
              (* [logging.getLogger(__name__).error(f"{e}"); continue] *)
              log_error msg (upd_obj (set_run (Alive (PWhile 0))) s1)
          | None =>
              (* not caught: the thread ends with the exception *)
              emit (EvExit (Some e)) (upd_obj (set_run (Finished (Some e))) s1)
          end
      end
  | NotStarted | Finished _ => s
  end.

(** One step of the foreground inside [stop()]: the state after it and
    where [stop()] stands then ([None] once it has returned). *)
Definition stop_step (p : StopPC) (s : Sys) : Sys * option StopPC :=
  match p with
  | StopClear => (upd_obj (set_running false) s, Some StopCheck)
  | StopCheck => (s, Some (if is_alive (th (obj s)) then StopJoin else StopRet))
  | StopJoin => (s, Some (if is_alive (th (obj s)) then StopJoin else StopRet))
  | StopRet => (emit (EvReturn CStop) s, None)
  end.

(** One step of the foreground thread. [Thread.start()] on a handle that
    was started before raises [RuntimeError]; an exception ends the
    foreground's program. *)
Definition main_step (s : Sys) : Sys :=
  match main s with
  | Idle =>
      match todo s with
      | [] => s
      | c :: rest =>
          let p := match c with
                   | CStart => InStart
                   | CStop => InStop StopClear
                   | CReset => InReset (ResetStop StopClear)
                   | CStore k v => InStore k v
                   end in
          set_main p (set_todo rest (emit (EvCall c) s))
      end
  | InStart =>
      match run_state (th (obj s)) with
      | NotStarted =>
          set_main Idle (emit (EvReturn CStart) (upd_obj (set_run (Alive PBoot)) s))
      | _ =>
          set_main Idle
            (set_todo []
               (emit (EvRaise CStart (RuntimeError "threads can only be started once")) s))
      end
  | InStop p =>
      let '(s1, q) := stop_step p s in
      set_main (match q with Some p' => InStop p' | None => Idle end) s1
  | InReset (ResetStop p) =>
      let '(s1, q) := stop_step p s in
      set_main (match q with Some p' => InReset (ResetStop p') | None => InReset ResetThread end) s1
  | InReset ResetThread => set_main (InReset ResetData) (upd_obj reset_thread s)
  | InReset ResetData => set_main (InReset ResetFlag) (upd_obj reset_data s)
  | InReset ResetFlag => set_main (InReset ResetRet) (upd_obj reset_flag s)
  | InReset ResetRet => set_main Idle (emit (EvReturn CReset) s)
  | InStore k v =>
      set_main Idle
        (emit (EvReturn (CStore k v))
           (upd_obj (fun o => set_dc (DataConnector.store (dc o) k v) o) s))
  end.

(** The two threads, and a run under a schedule that names the thread
    to move at each step. A thread that cannot move stays put. *)
Inductive Tid : Type := MainT | LoopT.

Definition step (s : Sys) (who : Tid) : Sys :=
  match who with
  | MainT => main_step s
  | LoopT => loop_step s
  end.

Definition exec (sched : list Tid) (s : Sys) : Sys := fold_left step sched s.

End Run.

(** The hierarchy in which [APIConnectionError] has no subclass, for
    runs in which [refresh()] raises nothing but [APIConnectionError]
    itself. *)
Definition no_subclass : string -> option string := fun _ => None.

(** A freshly constructed connector of class [c], the foreground about
    to make the calls [prog]. *)
Definition boot (c : ConnectorClass) (url : string) (t0 : Z) (prog : list Call) : Sys :=
  mkSys (new c url) t0 [] 0 Idle prog [].

(** *** Reading a trace *)


(** A [refresh()] call of the loop, or a [store] made by one. *)
Definition is_loop_work (e : Event) : bool :=
  match e with EvRefresh _ | EvStore _ _ => true | _ => false end.




(** How often the loop went to sleep. *)
Definition count_sleeps (tr : list Event) : nat :=
  length (List.filter (fun e => match e with EvSleep => true | _ => false end) tr).

(** *** Measures and invariants of a run *)


(** The thread is outside the loop body: not asleep and not inside
    [refresh()]. *)
Definition resting (r : RunState) : bool :=
  match r with
  | Alive (PSleep _) | Alive (PRefresh _ _) => false
  | _ => true
  end.

(** The trace holds no [refresh()] call and no [store] of the loop. *)
Definition no_loop_work (tr : list Event) : bool :=
  forallb (fun e => negb (is_loop_work e)) tr.

(** What holds of a connector from its construction on: nothing ever
    sets [_running], so the loop body is never entered. *)
Definition never_ran (s : Sys) : Prop :=
  _running (obj s) = false
  /\ _connected (obj s) = false
  /\ ncalls s = 0%nat
  /\ resting (run_state (th (obj s))) = true
  /\ no_loop_work (trace s) = true.




End Polling.

(** ** Exceptions raised by name

    [IndexError], [AttributeError] and [ValueError] are Python's own;
    [DataInvalidError] and [NotImplementedInAPIError] come from the
    [exceptions] module. *)

Definition IndexError : PyExc := OtherError "IndexError".
Definition AttributeError : PyExc := OtherError "AttributeError".
Definition ValueError : PyExc := OtherError "ValueError".
Definition DataInvalidError : PyExc := OtherError "DataInvalidError".

(** ** default *)

Module Default.

(** What [default] may be handed and may hand back: a value, a [bytes]
    object, or a function object (it returns itself in one branch). *)
Inductive Obj : Type :=
| OPy (v : PyVal)
| OBytes (b : list Byte.byte)
| OFunction (name : string).

(** [arg is None] *)
Definition is_none (o : Obj) : bool :=
  match o with OPy PNone => true | _ => false end.

(** [isinstance(arg, str) and arg == ""] *)
Definition is_empty_str (o : Obj) : bool :=
  match o with OPy (PStr s) => String.eqb s EmptyString | _ => false end.

(** [isinstance(arg, bytes) and arg == b""] *)
Definition is_empty_bytes (o : Obj) : bool :=
  match o with OBytes [] => true | _ => false end.

(** [isinstance(arg, Collection)]: strings, lists and bytes are sized
    iterable containers; numbers, [None], datetimes and functions are
    not. *)
Definition is_collection (o : Obj) : bool :=
  match o with
  | OPy (PStr _) | OPy (PList _) | OBytes _ => true
  | _ => false
  end.

(** [len(arg)] of a collection *)
Definition py_len (o : Obj) : nat :=
  match o with
  | OPy (PStr s) => String.length s
  | OPy (PList l) => length l
  | OBytes b => length b
  | _ => 0
  end.

(** The function object [default] itself. *)
Definition default_function : Obj := OFunction "default".

(** [default(arg, __default, *, empty_collection)]; the fourth test
    ends in [return default], the function, not [__default]. *)
Definition default (arg dflt : Obj) (empty_collection : bool) : Obj :=
  if is_none arg then dflt
  else if is_empty_str arg then dflt
  else if is_empty_bytes arg then dflt
  else if empty_collection && is_collection arg && (py_len arg =? 0)%nat
       then default_function
  else arg.

(** [None], the empty string and empty bytes: what [default] takes for
    missing. *)
Definition blank (o : Obj) : bool :=
  is_none o || is_empty_str o || is_empty_bytes o.

End Default.

(** ** ScheduledEvent, rendered *)

Module ScheduledEventRender.

Section Render.

(** [f"{x}"], Python's own formatting of a value. *)
Variable fmt : PyVal -> string.
(** [self.__class__.__name__] *)
Variable class_name : string.

Definition is_none (v : PyVal) : bool :=
  match v with PNone => true | _ => false end.

(** [ScheduledEvent.__str__] *)
Definition __str__ (self : ScheduledEvent.t) : string :=
  if is_none (ScheduledEvent.actual self) then fmt (ScheduledEvent.scheduled self)
  else fmt (ScheduledEvent.actual self).

(** [ScheduledEvent.__repr__] *)
Definition __repr__ (self : ScheduledEvent.t) : string :=
  if is_none (ScheduledEvent.actual self)
  then "<" ++ class_name ++ " " ++ fmt (ScheduledEvent.scheduled self) ++ ">"
  else "<" ++ class_name ++ " " ++ fmt (ScheduledEvent.actual self) ++ ">".

End Render.

End ScheduledEventRender.

(** ** Position, indexed and measured *)

Module PositionOps.

(** [l[i]] on a list with an integer index: negative indices count from
    the end, anything out of range raises [IndexError]. *)
Definition py_index {A : Type} (l : list A) (i : Z) : result A :=
  let n := Z.of_nat (length l) in
  let j := if (i <? 0)%Z then (i + n)%Z else i in
  if (0 <=? j)%Z && (j <? n)%Z then
    match nth_error l (Z.to_nat j) with
    | Some x => Ok x
    | None => Raise IndexError
    end
  else Raise IndexError.

(** [Position.__getitem__]: [list([self.latitude, self.longitude])[item]] *)
Definition __getitem__ (self : Position.t) (item : Z) : result Q :=
  lat ← Position.latitude self;
  lon ← Position.longitude self;
  py_index [lat; lon] item.

Section Distance.

(** [geodesic(Point(...), Point(...)).meters] is geopy's: the distance
    in meters between two (latitude, longitude) pairs. *)
Variable geodesic_meters : Q * Q -> Q * Q -> Q.

(** [Position.calculate_distance] *)
Definition calculate_distance (self other : Position.t) : result Q :=
  lat1 ← Position.latitude self;
  lon1 ← Position.longitude self;
  lat2 ← Position.latitude other;
  lon2 ← Position.longitude other;
  mret (geodesic_meters (lat1, lon1) (lat2, lon2)).

End Distance.

End PositionOps.

(** ** The decorator store *)

Module StoreDecorator.

(** What a decorated method is called on: a [DataConnector] or
    something else. *)
Inductive Receiver : Type :=
| RConnector (c : DataConnector.t)
| ROther (o : PyVal).

(** A method: its [__name__] and what a call does to the receiver,
    returning a value or raising. *)
Record Method : Type := mkMethod {
  __name__ : string;
  on_connector : DataConnector.t -> result PyVal * DataConnector.t;
  on_other : PyVal -> result PyVal * PyVal
}.

(** The argument of [store(...)]: a plain value ([None], a string,
    anything else that is not callable) or a callable. *)
Inductive StoreArg : Type :=
| AVal (v : PyVal)
| ACallable (m : Method).

(** What [store(...)] evaluates to: the decorator, still waiting for
    its method and holding [name]; the wrapper of a method; or an
    exception. *)
Inductive StoreRet : Type :=
| Decorator (name : option string)
| Wrapper (name : option string) (m : Method)
| Raised (e : PyExc).

(** [name or method.__name__] *)
Definition key_of (name : option string) (m : Method) : string :=
  match name with
  | Some s => if String.eqb s EmptyString then __name__ m else s
  | None => __name__ m
  end.

(** The inner function [wrapper] *)
Definition wrapper (name : option string) (m : Method) (self : Receiver)
  : result PyVal * Receiver :=
  match self with
  | RConnector c =>
      let '(r, c1) := on_connector m c in
      match r with
      | Raise e => (Raise e, RConnector c1)
      | Ok v =>
          let c2 := DataConnector.__setitem__ c1 (key_of name m) v in
          (DataConnector.__getitem__ c2 (key_of name m), RConnector c2)
      end
  | ROther o =>
      let '(r, o1) := on_other m o in (r, ROther o1)
  end.

(** [store(name)]. Given a callable it rebinds [name] to the callable's
    [__name__] and decorates it at once. *)
Definition store (name : StoreArg) : StoreRet :=
  match name with
  | AVal (PStr s) => Decorator (Some s)
  | AVal PNone => Decorator None
  | ACallable m => Wrapper (Some (__name__ m)) m
  | AVal _ => Raised ValueError
  end.

(** Applying what [store(...)] gave to a method, as [@store(...)] over
    a [def] does. *)
Definition decorate (d : StoreRet) (m : Method) : StoreRet :=
  match d with
  | Decorator name => Wrapper name m
  | other => other
  end.

(** Calling the decorated method. *)
Definition call (w : StoreRet) (self : Receiver) : option (result PyVal * Receiver) :=
  match w with
  | Wrapper name m => Some (wrapper name m self)
  | _ => None
  end.

End StoreDecorator.

(** ** Station *)

Module Station.

Record t : Type := mk {
  _id : PyVal;
  _name : string;
  _platform : option ScheduledEvent.t;
  _arrival : option ScheduledEvent.t;
  _departure : option ScheduledEvent.t;
  _position : option Position.t;
  _distance : option Q;
  _connections : LazyStation.Connections
}.

(** The properties [arrival], [distance], [position]: plain getters. *)
Definition arrival (self : t) : option ScheduledEvent.t := _arrival self.
Definition distance (self : t) : option Q := _distance self.
Definition position (self : t) : option Position.t := _position self.

(** What [calculate_distance] may be handed: a station, a tuple of
    coordinates, a number, [None], or something it has no branch for,
    such as a [Position] or a string. *)
Inductive Other : Type :=
| OfStation (s : t)
| OfTuple (lat lon : Q)
| OfNumber (x : Q)
| OfPosition (p : Position.t)
| OfNone
| OfString (s : string).

Section Distance.

(** [coordinates_to_distance] lives in [utils.conversions]. *)
Variable coordinates_to_distance : Q * Q -> Q * Q -> result Q.

(** The first statement: a station is replaced by its distance, else by
    its position, else by [None]. *)
Definition resolve (other : Other) : Other :=
  match other with
  | OfStation o =>
      match distance o with
      | Some d => OfNumber d
      | None =>
          match position o with
          | Some p => OfPosition p
          | None => OfNone
          end
      end
  | x => x
  end.

(** [Station.calculate_distance]. [self.distance - other] on a station
    without a distance is [None - number], a [TypeError];
    [self.position.latitude] on one without a position is an
    [AttributeError]. *)
Definition calculate_distance (self : t) (other : Other) : result (option Q) :=
  match resolve other with
  | OfNone => Ok None
  | OfNumber x =>
      match distance self with
      | None => Raise TypeError
      | Some d => Ok (Some (if Qle_bool 0 (d - x) then d - x else x - d)%Q)
      end
  | OfTuple lat lon =>
      match position self with
      | None => Raise AttributeError
      | Some p =>
          la ← Position.latitude p;
          lo ← Position.longitude p;
          r ← coordinates_to_distance (la, lo) (lat, lon);
          mret (Some r)
      end
  | OfStation _ | OfPosition _ | OfString _ => Ok None
  end.

End Distance.

End Station.

(** ** Train *)

Module Train.

(** What a concrete train supplies to the methods that [Train] itself
    implements: its stations, a dict in insertion order; the current
    station; its distance from the start and its position. *)
Record t : Type := mk {
  stations : list (PyVal * Station.t);
  current_station : Station.t;
  distance : option Q;
  position : option Position.t
}.

(** [list(self.stations.values())] *)
Definition station_list (self : t) : list Station.t := map snd (stations self).

(** [Train.origin] *)
Definition origin (self : t) : result Station.t :=
  match station_list self with
  | s :: _ => Ok s
  | [] => Raise DataInvalidError
  end.

(** [Train.destination]: [stations[-1]] *)
Definition destination (self : t) : result Station.t :=
  match station_list self with
  | _ :: _ => PositionOps.py_index (station_list self) (-1)
  | [] => Raise DataInvalidError
  end.

(** [self.distance or self.position] *)
Definition distance_or_position (self : t) : Station.Other :=
  match distance self with
  | Some d =>
      if negb (Qeq_bool d 0) then Station.OfNumber d
      else match position self with
           | Some p => Station.OfPosition p
           | None => Station.OfNone
           end
  | None =>
      match position self with
      | Some p => Station.OfPosition p
      | None => Station.OfNone
      end
  end.

(** [Train.calculate_distance] *)
Definition calculate_distance (c2d : Q * Q -> Q * Q -> result Q)
    (self : t) (station : Station.t) : result (option Q) :=
  Station.calculate_distance c2d station (distance_or_position self).

End Train.

(** ** ConnectingTrain, rendered *)

Module ConnectingTrainRender.

Import LazyStation.

Section Render.

(** [f"{x}"] of an optional string, of a value, and
    [datetime.strftime('%H:%M')]: Python's own. *)
Variable fmt_opt : option string -> string.
Variable fmt : PyVal -> string.
Variable strftime_HM : Z -> string.

(** [x.strftime('%H:%M')]: only a datetime has the method. *)
Definition strftime (v : PyVal) : result string :=
  match v with
  | PDatetime t => Ok (strftime_HM t)
  | _ => Raise AttributeError
  end.

(** [ConnectingTrain.__str__] *)
Definition __str__ (self : ConnectingTrain) : result string :=
  let head := fmt_opt (train_type self) ++ fmt_opt (line_number self)
              ++ " to " ++ fmt_opt (destination self) in
  match departure self with
  | None => Raise AttributeError
  | Some dep =>
      hm ← strftime (ScheduledEvent.actual dep);
      match platform self with
      | None => Raise AttributeError
      | Some pl =>
          mret (head ++ " (" ++ hm ++ ", platform "
                  ++ fmt (ScheduledEvent.actual pl) ++ ")")
      end
  end.

(** [ConnectingTrain.__repr__] *)
Definition __repr__ (class_name : string) (self : ConnectingTrain) : string :=
  "<" ++ class_name ++ " " ++ fmt_opt (train_type self) ++ fmt_opt (line_number self)
    ++ " -> " ++ fmt_opt (destination self) ++ ">".

End Render.

End ConnectingTrainRender.

(** * Properties *)

(** ** ScheduledEvent *)

Lemma py_or_None (b : PyVal) : py_or PNone b = b.
Proof. reflexivity. Qed.

Lemma py_or_truthy (a b : PyVal) : truthy a = true -> py_or a b = a.
Proof. unfold py_or. intros ->. reflexivity. Qed.

(** With no [actual] supplied the event holds the scheduled value twice. *)
Lemma ScheduledEvent_default_actual (x : PyVal) :
  ScheduledEvent.actual (ScheduledEvent.new1 x) = x.
Proof. unfold ScheduledEvent.new1, ScheduledEvent.__init__. simpl. apply py_or_None. Qed.

(** A supplied [actual] is kept when it is truthy. *)
Lemma ScheduledEvent_truthy_actual (s a : PyVal) :
  truthy a = true -> ScheduledEvent.actual (ScheduledEvent.__init__ s a) = a.
Proof. intros H. simpl. apply py_or_truthy, H. Qed.

(** [actual] is [None] only when [scheduled] is. *)
Lemma ScheduledEvent_actual_None (s a : PyVal) :
  ScheduledEvent.actual (ScheduledEvent.__init__ s a) = PNone -> s = PNone.
Proof.
  simpl. unfold py_or. destruct (truthy a) eqn:Ha; [|tauto].
  intros ->. discriminate Ha.
Qed.

(** C7, at the inputs where the code departs from it: an [actual] that
    is not [None] but is falsy (the empty string, zero) is dropped in
    favour of [scheduled], and an event scheduled as [None] has [None]
    as its [actual]. *)
Theorem ScheduledEvent_falsy_actual_dropped :
  ScheduledEvent.actual (ScheduledEvent.__init__ (PStr "3") (PStr EmptyString)) = PStr "3"
  /\ ScheduledEvent.actual (ScheduledEvent.__init__ (PInt 5) (PInt 0)) = PInt 5
  /\ ScheduledEvent.actual (ScheduledEvent.new1 PNone) = PNone.
Proof. repeat split. Qed.

(** ** Position *)

Section PositionStr.

Variable dms : Q * Q -> result ((Z * Z * Q) * (Z * Z * Q)).
Variable fmt_int : Z -> string.
Variable fmt_fixed : nat -> Q -> string.

Lemma Position_altitude_present (lat lon a : Q) (h : option Q) :
  Position.altitude (Position.__init__ lat lon (Some a) h) = Ok a.
Proof. reflexivity. Qed.

Lemma Position_bearing_present (lat lon b : Q) (a : option Q) :
  Position.bearing (Position.__init__ lat lon a (Some b)) = Ok b.
Proof. reflexivity. Qed.

(** With both optional parts present and the conversion succeeding,
    rendering succeeds. *)
Lemma Position_str_full (lat lon a b : Q) d :
  dms (lat, lon) = Ok d ->
  is_ok (Position.__str__ dms fmt_int fmt_fixed
           (Position.__init__ lat lon (Some a) (Some b))) = true.
Proof.
  intros Hd. unfold Position.__str__. simpl. rewrite Hd. simpl.
  destruct d as [dlat dlon]. reflexivity.
Qed.

(** C8, as the code has it: on a position built without an altitude the
    accessor [altitude] raises [TypeError], likewise [bearing] without a
    heading, and rendering either position never succeeds. *)
Theorem Position_absent_part_raises (lat lon : Q) (alt hdg : option Q) :
  Position._altitude (Position.__init__ lat lon None hdg) = None
  /\ Position.altitude (Position.__init__ lat lon None hdg) = Raise TypeError
  /\ Position.bearing (Position.__init__ lat lon alt None) = Raise TypeError
  /\ is_ok (Position.__str__ dms fmt_int fmt_fixed
              (Position.__init__ lat lon None hdg)) = false
  /\ is_ok (Position.__str__ dms fmt_int fmt_fixed
              (Position.__init__ lat lon alt None)) = false.
Proof.
  repeat split.
  - unfold Position.__str__. simpl.
    destruct (dms (lat, lon)) as [[dlat dlon]|e]; reflexivity.
  - unfold Position.__str__. simpl.
    destruct (dms (lat, lon)) as [[dlat dlon]|e]; [|reflexivity].
    destruct alt; reflexivity.
Qed.

End PositionStr.

(** ** DataConnector *)

Section Cache.

Import DataConnector.

Lemma store_all_class h c : __class__ (store_all h c) = __class__ c.
Proof.
  revert c. induction h as [|[k v] h IH]; intros c; [reflexivity|].
  unfold store_all in *. simpl. rewrite IH. reflexivity.
Qed.

(** What the cache holds under [key] after a history of stores. *)
Lemma store_all_lookup h c key :
  _data (store_all h c) !! key =
  match last_stored key h with
  | Some v => Some v
  | None => _data c !! key
  end.
Proof.
  revert c. induction h as [|[k v] h IH]; intros c; [reflexivity|].
  change (store_all ((k, v) :: h) c) with (store_all h (store c k v)).
  rewrite IH. simpl. destruct (last_stored key h); [reflexivity|].
  destruct (String.eqb_spec k key) as [->|Hne]; simpl.
  - apply lookup_insert_eq.
  - apply lookup_insert_ne, Hne.
Qed.

Lemma last_stored_None key h : key ∉ map fst h -> last_stored key h = None.
Proof.
  induction h as [|[k v] h IH]; [reflexivity|]. simpl. intros Hn.
  rewrite IH by (intros Hin; apply Hn; right; exact Hin).
  destruct (String.eqb_spec k key) as [->|]; [|reflexivity].
  exfalso. apply Hn. left.
Qed.

Lemma last_stored_app key h1 h2 :
  last_stored key (h1 ++ h2) =
  match last_stored key h2 with
  | Some v => Some v
  | None => last_stored key h1
  end.
Proof.
  induction h1 as [|[k v] h1 IH]; simpl.
  - destruct (last_stored key h2); reflexivity.
  - rewrite IH. destruct (last_stored key h2); reflexivity.
Qed.

Lemma last_stored_last key v h1 h2 :
  key ∉ map fst h2 -> last_stored key (h1 ++ (key, v) :: h2) = Some v.
Proof.
  intros Hn. rewrite last_stored_app. simpl.
  rewrite (last_stored_None _ _ Hn), String.eqb_refl. reflexivity.
Qed.

(** Index-style reads fail on an absent key, where [load] falls back. *)
Lemma getitem_absent c key :
  _data c !! key = None -> __getitem__ c key = Raise (KeyError key).
Proof. unfold __getitem__. intros ->. reflexivity. Qed.

(** C10 as stated fails on the connector class that overrides [load]:
    a fresh [DummyDataConnector], nothing stored, does not answer with
    the fallback. *)
Lemma Dummy_load_ignores_fallback :
  load (store_all [] (new DummyDataConnectorC)) "position" PNone <> Ok PNone.
Proof. discriminate. Qed.

(** C10, amended: on every connector whose class keeps
    [DataConnector.load], after any history of [store] calls on a new
    connector, [load] succeeds; it answers with the fallback when the key
    was never stored and with the value stored last otherwise. *)
Theorem load_after_stores (c : ConnectorClass) (h : list (string * PyVal))
    (key : string) (dflt : PyVal) :
  c <> DummyDataConnectorC ->
  (key ∉ map fst h -> load (store_all h (new c)) key dflt = Ok dflt)
  /\ (forall (h1 : list (string * PyVal)) v h2,
        h = (h1 ++ (key, v) :: h2)%list -> key ∉ map fst h2 ->
        load (store_all h (new c)) key dflt = Ok v)
  /\ is_ok (load (store_all h (new c)) key dflt) = true.
Proof.
  intros Hc.
  assert (Hload : load (store_all h (new c)) key dflt =
                  Ok (default dflt (last_stored key h))).
  { unfold load. rewrite store_all_class. simpl.
    destruct c; try congruence; unfold base_load, dict_get;
      rewrite store_all_lookup; simpl; rewrite lookup_empty;
      destruct (last_stored key h); reflexivity. }
  rewrite Hload. repeat split.
  - intros Hn. rewrite (last_stored_None _ _ Hn). reflexivity.
  - intros h1 v h2 -> Hn. rewrite (last_stored_last _ _ _ _ Hn). reflexivity.
Qed.

Lemma load_after_stores_witness :
  load (store_all [("position", PInt 1); ("speed", PInt 7); ("position", PInt 2)]
          (new PollingDataConnectorC)) "position" PNone = Ok (PInt 2).
Proof.
  refine (proj1 (proj2 (load_after_stores PollingDataConnectorC
            [("position", PInt 1); ("speed", PInt 7); ("position", PInt 2)]
            "position" PNone _))
          [("position", PInt 1); ("speed", PInt 7)] (PInt 2) [] eq_refl _).
  - discriminate.
  - simpl. apply not_elem_of_nil.
Defined.

End Cache.

(** ** _LazyStation.connections *)

Section Lazy.

Import LazyStation.

Lemma Qgtb_true (a b : Q) : Qgtb a b = true <-> (b < a)%Q.
Proof.
  unfold Qgtb. rewrite negb_true_iff. split.
  - intros H. apply Qnot_le_lt. intros Hle.
    apply Qle_bool_iff in Hle. congruence.
  - intros H. destruct (Qle_bool a b) eqn:E; [|reflexivity].
    apply Qle_bool_iff in E. exfalso. exact (Qlt_not_le _ _ H E).
Qed.

Lemma Qgtb_false (a b : Q) : Qgtb a b = false <-> (a <= b)%Q.
Proof.
  unfold Qgtb. rewrite negb_false_iff. apply Qle_bool_iff.
Qed.

(** A station without a callback is a plain stored value: reading it
    calls nothing and changes nothing. *)
Lemma connections_static (self : t) (w : World) :
  _lazy_func self = None ->
  connections self w = (Ok (_connections self), self, w).
Proof. unfold connections. intros ->. reflexivity. Qed.

Lemma connections_static_witness :
  connections (__init__ (PStr "8000105") "Frankfurt" None None 60) (mkWorld 1000 [])
  = (Ok None, __init__ (PStr "8000105") "Frankfurt" None None 60, mkWorld 1000 []).
Proof.
  exact (connections_static (__init__ (PStr "8000105") "Frankfurt" None None 60)
           (mkWorld 1000 []) eq_refl).
Defined.

(** A read that goes through [request_data] invokes the callback once. *)
Lemma request_data_calls (f : LazyFunc) (self : t) (w : World) :
  calls (snd (request_data f self w)) = _id self :: calls w.
Proof.
  unfold request_data. destruct (f_result _); reflexivity.
Qed.

(** A failure of the callback reaches the reader and leaves the station
    untouched. *)
Lemma request_data_raises (f : LazyFunc) (self : t) (w : World) e :
  f_result (f (_id self) (length (calls w))) = Raise e ->
  fst (request_data f self w) = (Raise e, self).
Proof. unfold request_data. intros ->. reflexivity. Qed.

(** C4 as stated fails when the callback answers with [None]: the
    station takes the stored [None] for "no cache yet" and the second
    read, ten seconds after the first and well inside the sixty-second
    window, invokes the callback again. *)
Lemma absent_value_is_refetched :
  let f : LazyFunc := fun _ _ => mkFetched (Ok None) 0 in
  let st := __init__ (PStr "8000105") "Frankfurt" None (Some f) 60 in
  let '(r1, s1, w1) := connections st (mkWorld 1000 []) in
  let w := tick 10 w1 in
  let '(r2, s2, w2) := connections s1 w in
  r1 = Ok None /\ r2 = Ok None
  /\ (clock w <= _cache_valid_until s1)%Q
  /\ length (calls w2) = 2%nat.
Proof. vm_compute. repeat split; discriminate. Qed.

(** C4, amended: when the first fetch returns a list of trains (any
    value but [None]), every read up to [T] seconds after it returns
    that same list and invokes nothing, so the callback ran once in
    total; a read later than that invokes the callback exactly once. *)
Theorem lazy_connections_window (self : t) (f : LazyFunc) (w0 : World)
    (cs : list ConnectingTrain) (d : Q) :
  _lazy_func self = Some f ->
  (_cache_valid_until self < clock w0)%Q \/ _connections self = None ->
  f (_id self) (length (calls w0)) = mkFetched (Ok (Some cs)) d ->
  exists s1 w1,
    connections self w0 = (Ok (Some cs), s1, w1)
    /\ calls w1 = _id self :: calls w0
    /\ (forall w, (clock w <= clock w1 + inject_Z (_cache_timeout self))%Q ->
          connections s1 w = (Ok (Some cs), s1, w))
    /\ (forall w, (clock w1 + inject_Z (_cache_timeout self) < clock w)%Q ->
          calls (snd (connections s1 w)) = _id self :: calls w).
Proof.
  intros Hf Hfirst Hcall.
  assert (Hread : connections self w0 = request_data f self w0).
  { unfold connections. rewrite Hf.
    destruct (Qgtb (clock w0) (_cache_valid_until self)) eqn:E; [reflexivity|].
    destruct Hfirst as [Hlt | ->]; [|reflexivity].
    apply Qgtb_true in Hlt. congruence. }
  rewrite Hread. unfold request_data. rewrite Hcall. simpl.
  eexists _, _. split; [reflexivity|]. simpl. split; [reflexivity|]. split.
  - intros w Hw. unfold connections. simpl. rewrite Hf.
    apply Qgtb_false in Hw. rewrite Hw. reflexivity.
  - intros w Hw. unfold connections. simpl. rewrite Hf.
    apply Qgtb_true in Hw. rewrite Hw.
    rewrite request_data_calls. reflexivity.
Qed.

Lemma lazy_connections_window_witness :
  let f : LazyFunc := fun _ _ => mkFetched (Ok (Some [])) 2 in
  let st := __init__ (PStr "8000105") "Frankfurt" None (Some f) 60 in
  exists s1 w1,
    connections st (mkWorld 1000 []) = (Ok (Some []), s1, w1)
    /\ calls w1 = [PStr "8000105"]
    /\ (forall w, (clock w <= clock w1 + inject_Z 60)%Q ->
          connections s1 w = (Ok (Some []), s1, w))
    /\ (forall w, (clock w1 + inject_Z 60 < clock w)%Q ->
          calls (snd (connections s1 w)) = PStr "8000105" :: calls w).
Proof.
  exact (lazy_connections_window
           (__init__ (PStr "8000105") "Frankfurt" None
              (Some (fun _ _ => mkFetched (Ok (Some [])) 2)) 60)
           (fun _ _ => mkFetched (Ok (Some [])) 2)
           (mkWorld 1000 []) [] 2 eq_refl (or_intror eq_refl) eq_refl).
Defined.

End Lazy.

(** ** PollingDataConnector *)

Section PollingFlags.

Import Polling.

(** C9: [connected] is true only when [_running] is; the first statement
    of [stop()] makes it read false at once, while the stored
    [_connected] keeps its value, and [reset()] is what clears it. *)
Theorem connected_only_while_running (o : t) :
  (connected o = true -> _running o = true)
  /\ connected (obj (fst (stop_step StopClear
       (mkSys o 0 [] 0 (InStop StopClear) [] [])))) = false
  /\ _connected (obj (fst (stop_step StopClear
       (mkSys o 0 [] 0 (InStop StopClear) [] [])))) = _connected o
  /\ _connected (reset_idle o) = false.
Proof.
  repeat split.
  - unfold connected. intros H. apply andb_true_iff in H. tauto.
  - unfold connected. simpl. apply andb_false_r.
Qed.

Lemma connected_only_while_running_witness :
  _running (mk (DataConnector.new PollingDataConnectorC)
              (mkThread (Some RunLoop) None (Some true) (Alive (PWhile 0)))
              "127.0.0.1" true true) = true.
Proof.
  apply (proj1 (connected_only_while_running _)). reflexivity.
Defined.

End PollingFlags.

(** *** The timing arithmetic *)

Section PollingTiming.

Import Polling.

Lemma ratio_nonpos (d : Z) :
  (d <= 0)%Z -> Qle_bool (inject_Z d / inject_Z second_ns) 0 = true.
Proof.
  intros H. apply Qle_bool_iff.
  unfold Qle, Qdiv, Qmult, Qinv, inject_Z, second_ns. simpl. lia.
Qed.

Lemma ratio_pos (d : Z) :
  (0 < d)%Z -> Qle_bool (inject_Z d / inject_Z second_ns) 0 = false.
Proof.
  intros H. destruct (Qle_bool _ _) eqn:E; [|reflexivity].
  apply Qle_bool_iff in E. revert E.
  unfold Qle, Qdiv, Qmult, Qinv, inject_Z, second_ns. simpl. lia.
Qed.

(** The counter in integers: the time left, cut off at zero, counted in
    whole sleep increments and taken away from [tps], modulo [tps]. *)
Lemma next_counter_spec (target now : Z) :
  next_counter target now = Z.modulo (tps - Z.max 0 (target - now) / sleep_ns) tps.
Proof.
  unfold next_counter, py_max.
  destruct (Z_le_gt_dec (target - now) 0) as [Hle|Hgt].
  - rewrite (ratio_nonpos _ Hle). rewrite Z.max_l by lia. reflexivity.
  - rewrite (ratio_pos _ (Z.gt_lt _ _ Hgt)). rewrite Z.max_r by lia.
    set (d := (target - now)%Z) in *.
    unfold py_int.
    assert (Hnn : Qle_bool 0 (inject_Z d / inject_Z second_ns * inject_Z tps) = true).
    { apply Qle_bool_iff.
      unfold Qle, Qdiv, Qmult, Qinv, inject_Z, second_ns, tps. simpl. lia. }
    rewrite Hnn. f_equal. f_equal.
    unfold Qfloor, Qdiv, Qmult, Qinv, inject_Z, second_ns, tps, sleep_ns. simpl.
    change (Z.pos (1 * 1000000000 * 1)) with (50000000 * 20)%Z.
    replace (d * 1 * 20)%Z with (d * 20)%Z by lia.
    apply Z.div_mul_cancel_r; lia.
Qed.

(** A [refresh()] that ends at or after the target leaves the counter
    at zero. *)
Lemma next_counter_late (target now : Z) :
  (target - now <= 0)%Z -> next_counter target now = 0%Z.
Proof.
  intros H. rewrite next_counter_spec, Z.max_l by lia. reflexivity.
Qed.

(** With [k] whole increments left, fewer than [tps], the counter
    starts [k] short of [tps]. *)
Lemma next_counter_early (target now : Z) (k : nat) :
  (0 < k < 20)%nat ->
  (Z.of_nat k * sleep_ns <= target - now < (Z.of_nat k + 1) * sleep_ns)%Z ->
  next_counter target now = (tps - Z.of_nat k)%Z.
Proof.
  intros Hk Hrem. rewrite next_counter_spec.
  unfold sleep_ns, tps in *.
  rewrite Z.max_r by lia.
  assert (Hq : ((target - now) `div` 50000000 = Z.of_nat k)%Z).
  { symmetry. apply (Z.div_unique _ _ _ (target - now - Z.of_nat k * 50000000)); lia. }
  rewrite Hq. apply Z.mod_small. lia.
Qed.

End PollingTiming.

(** *** The loop, one cycle at a time *)

Section PollingLoop.

Import Polling.

Variable connection_subclass : string -> option string.
Variable refresh : nat -> RefreshCall.

(** The [store] calls of a [refresh()] touch the cache and the trace and
    nothing else. *)
Lemma do_stores_frame l s :
  th (obj (do_stores l s)) = th (obj s)
  /\ _running (obj (do_stores l s)) = _running (obj s)
  /\ _connected (obj (do_stores l s)) = _connected (obj s)
  /\ now (do_stores l s) = now s
  /\ log (do_stores l s) = log s
  /\ ncalls (do_stores l s) = ncalls s
  /\ main (do_stores l s) = main s
  /\ todo (do_stores l s) = todo s.
Proof.
  revert s. induction l as [|[k v] l IH]; intros s; simpl.
  - repeat split.
  - destruct (IH (emit (EvStore k v)
       (upd_obj (fun o => set_dc (DataConnector.store (dc o) k v) o) s)))
      as (H1 & H2 & H3 & H4 & H5 & H6 & H7 & H8).
    rewrite H1, H2, H3, H4, H5, H6, H7, H8. repeat split.
Qed.

Lemma do_stores_data l s :
  dc (obj (do_stores l s)) = DataConnector.store_all l (dc (obj s)).
Proof.
  revert s. induction l as [|[k v] l IH]; intros s; [reflexivity|].
  simpl. rewrite IH. reflexivity.
Qed.

Lemma do_stores_sleeps l s :
  count_sleeps (trace (do_stores l s)) = count_sleeps (trace s).
Proof.
  revert s. induction l as [|[k v] l IH]; intros s; [reflexivity|].
  simpl. rewrite IH. reflexivity.
Qed.



Ltac frame_stores l s :=
  let H := fresh "Hfr" in
  pose proof (do_stores_frame l s) as H;
  destruct H as (? & ? & ? & ? & ? & ? & ? & ?).


(** When [refresh()] returns, the loop marks the connector connected
    and sets the counter from the time left. *)
Lemma loop_on_refresh_return (s : Sys) (target : Z) (n : nat) :
  run_state (th (obj s)) = Alive (PRefresh target n) ->
  r_outcome (refresh n) = Returns ->
  let s1 := loop_step connection_subclass refresh s in
  _connected (obj s1) = true
  /\ now s1 = (now s + r_elapsed (refresh n))%Z
  /\ run_state (th (obj s1)) = Alive (PWhile (next_counter target (now s1)))
  /\ count_sleeps (trace s1) = count_sleeps (trace s).
Proof.
  intros Hpc Hout. unfold loop_step. rewrite Hpc, Hout.
  frame_stores (r_stores (refresh n)) s. simpl.
  repeat split; try congruence. apply do_stores_sleeps.
Qed.

(** With the counter at zero and the connector running, the next step
    of the loop is a [refresh()], not a sleep. *)
Lemma loop_at_zero_refreshes (s : Sys) :
  run_state (th (obj s)) = Alive (PWhile 0) ->
  _running (obj s) = true ->
  run_state (th (obj (loop_step connection_subclass refresh s)))
    = Alive (PRefresh (now s + second_ns) (ncalls s))
  /\ trace (loop_step connection_subclass refresh s) = EvRefresh (ncalls s) :: trace s.
Proof.
  intros Hpc Hrun. unfold loop_step. rewrite Hpc, Hrun. simpl. split; reflexivity.
Qed.

(** One pass of the loop with a counter that is not zero: one sleep of
    one increment, the counter one further. *)
Lemma loop_sleep_once (s : Sys) (c : Z) :
  (0 < c < tps)%Z ->
  run_state (th (obj s)) = Alive (PWhile c) ->
  _running (obj s) = true ->
  let s2 := loop_step connection_subclass refresh (loop_step connection_subclass refresh s) in
  run_state (th (obj s2)) = Alive (PWhile (Z.modulo (c + 1) tps))
  /\ _running (obj s2) = true
  /\ count_sleeps (trace s2) = S (count_sleeps (trace s))
  /\ now s2 = (now s + sleep_ns)%Z
  /\ ncalls s2 = ncalls s.
Proof.
  intros Hc Hpc Hrun.
  assert (E1 : loop_step connection_subclass refresh s
               = emit EvSleep (upd_obj (set_run (Alive (PSleep c))) s)).
  { unfold loop_step. rewrite Hpc, Hrun.
    destruct (c =? 0)%Z eqn:E; [apply Z.eqb_eq in E; lia | reflexivity]. }
  rewrite E1. unfold loop_step. simpl. repeat split. exact Hrun.
Qed.

Lemma exec_two_more (k : nat) (s : Sys) :
  exec connection_subclass refresh (repeat LoopT (2 * S k)) s
  = exec connection_subclass refresh (repeat LoopT (2 * k)) (loop_step connection_subclass refresh (loop_step connection_subclass refresh s)).
Proof.
  replace (2 * S k)%nat with (S (S (2 * k))) by lia. reflexivity.
Qed.

(** With the counter [k] short of [tps], the loop sleeps [k] times, one
    increment each, calls nothing, and is then back at zero. *)
Lemma loop_sleeps (k : nat) : forall s : Sys,
  (k < 19)%nat ->
  run_state (th (obj s)) = Alive (PWhile (tps - Z.of_nat (S k))) ->
  _running (obj s) = true ->
  let s' := exec connection_subclass refresh (repeat LoopT (2 * S k)) s in
  run_state (th (obj s')) = Alive (PWhile 0)
  /\ count_sleeps (trace s') = (count_sleeps (trace s) + S k)%nat
  /\ now s' = (now s + Z.of_nat (S k) * sleep_ns)%Z
  /\ ncalls s' = ncalls s
  /\ _running (obj s') = true.
Proof.
  induction k as [|k IH]; intros s Hk Hpc Hrun s'; subst s';
    rewrite exec_two_more.
  - assert (Hc : (0 < tps - Z.of_nat 1 < tps)%Z) by (unfold tps; lia).
    destruct (loop_sleep_once s _ Hc Hpc Hrun)
      as (Hpc2 & Hrun2 & Hsl2 & Hnow2 & Hn2).
    change (exec connection_subclass refresh (repeat LoopT (2 * 0)) ?x) with x.
    rewrite Hpc2, Hsl2, Hnow2, Hn2.
    repeat split; try assumption; try reflexivity; lia.
  - assert (Hc : (0 < tps - Z.of_nat (S (S k)) < tps)%Z) by (unfold tps; lia).
    destruct (loop_sleep_once s _ Hc Hpc Hrun)
      as (Hpc2 & Hrun2 & Hsl2 & Hnow2 & Hn2).
    replace (Z.modulo (tps - Z.of_nat (S (S k)) + 1) tps)
      with (tps - Z.of_nat (S k))%Z in Hpc2
      by (rewrite Z.mod_small; unfold tps; lia).
    assert (Hk' : (k < 19)%nat) by lia.
    destruct (IH _ Hk' Hpc2 Hrun2) as (Ha & Hb & Hd & He & Hf).
    rewrite Ha, Hb, Hd, He, Hf, Hsl2, Hnow2, Hn2.
    repeat split; lia.
Qed.

End PollingLoop.

Section PollingLoopWitness.

Import Polling.


End PollingLoopWitness.

(** *** Runs of the two threads *)

Section PollingRuns.

Import Polling.

Variable connection_subclass : string -> option string.
Variable refresh : nat -> RefreshCall.

(** A property kept by every step holds along every run. *)
Lemma exec_invariant (P : Sys -> Prop) :
  (forall s who, P s -> P (step connection_subclass refresh s who)) ->
  forall sched s, P s -> P (exec connection_subclass refresh sched s).
Proof.
  intros Hstep sched. unfold exec.
  induction sched as [|who sched IH]; intros s Hs; simpl; auto.
Qed.


(** The loop thread never writes [_running] and never moves the
    foreground. *)
Lemma loop_step_frame (s : Sys) :
  _running (obj (loop_step connection_subclass refresh s)) = _running (obj s)
  /\ main (loop_step connection_subclass refresh s) = main s
  /\ todo (loop_step connection_subclass refresh s) = todo s.
Proof.
  unfold loop_step.
  destruct (run_state (th (obj s))) as [|[|c|c|tg n]|e]; simpl; auto.
  - destruct (_target (th (obj s))) as [[]|]; simpl; auto.
  - destruct (_running (obj s)) eqn:Hr; [destruct (negb (c =? 0)%Z)|];
      simpl; auto.
  - destruct (do_stores_frame (r_stores (refresh n)) s)
      as (_ & Hr & _ & _ & _ & _ & Hm & Ht).
    destruct (r_outcome (refresh n)) as [|e']; [|destruct (caught connection_subclass e')];
      simpl; auto.
Qed.



(** [join()] blocks: inside it the foreground stays where it is for as
    long as the thread is alive. *)
Lemma join_blocks_while_alive (s : Sys) :
  main s = InStop StopJoin ->
  is_alive (th (obj s)) = true ->
  main_step s = s.
Proof.
  intros Hm Ha. unfold main_step. rewrite Hm. simpl. rewrite Ha.
  destruct s; simpl in *. subst. reflexivity.
Qed.

Lemma never_ran_boot c url t0 prog : never_ran (boot c url t0 prog).
Proof. repeat split. Qed.

Lemma never_ran_step s who : never_ran s -> never_ran (step connection_subclass refresh s who).
Proof.
  unfold never_ran.
  destruct s as [[d [tg nm dm rs] url run con] nw lg nc mn td tr]. simpl.
  intros (-> & -> & -> & Hrest & Htr).
  destruct who; simpl.
  - unfold main_step. simpl.
    destruct mn as [| |p|[p| | | |]|k v]; simpl.
    + destruct td as [|[] rest]; simpl; auto.
    + destruct rs; simpl; auto.
    + destruct p; simpl; auto.
    + destruct p; simpl; auto.
    + auto.
    + auto.
    + auto.
    + auto.
    + auto.
  - unfold loop_step. simpl.
    destruct rs as [|[|c|c|tg' n]|e]; simpl in *; try discriminate; auto.
    destruct tg as [[]|]; simpl; auto.
Qed.

End PollingRuns.

(** *** stop() and the loop *)

Section PollingStop.

Import Polling.

Variable connection_subclass : string -> option string.
Variable refresh : nat -> RefreshCall.





End PollingStop.

(** *** The lifecycle, from construction on *)

Section PollingLifecycle.

Import Polling.

Variable connection_subclass : string -> option string.
Variable refresh : nat -> RefreshCall.

Lemma never_ran_exec c url t0 prog sched :
  never_ran (exec connection_subclass refresh sched (boot c url t0 prog)).
Proof.
  apply exec_invariant; [apply never_ran_step | apply never_ran_boot].
Qed.

(** C1, as the code has it: [__init__] sets [_running] to false and
    nothing sets it to true, neither the inherited [start()] nor [_run].
    So on a new connector, whatever calls the foreground makes and
    however the two threads interleave, [refresh()] is never invoked,
    [connected] never reads true and the trace holds no work of the
    loop; after [start()] the thread tests [while self._running] once
    and ends. This holds for every behaviour of [refresh()], one that
    always succeeds included. *)
Theorem start_never_refreshes (c : ConnectorClass) (url : string) (t0 : Z)
    (prog : list Call) (sched : list Tid) :
  ncalls (exec connection_subclass refresh sched (boot c url t0 prog)) = 0%nat
  /\ connected (obj (exec connection_subclass refresh sched (boot c url t0 prog))) = false
  /\ no_loop_work (trace (exec connection_subclass refresh sched (boot c url t0 prog))) = true
  /\ run_state (th (obj (exec connection_subclass refresh [MainT; MainT; LoopT; LoopT]
                           (boot c url t0 [CStart])))) = Finished None.
Proof.
  destruct (never_ran_exec c url t0 prog sched) as (Hr & Hc & Hn & _ & Ht).
  repeat split; try assumption.
  unfold connected. rewrite Hc. reflexivity.
Qed.




(** The steps of the foreground inside [stop()], one by one. *)
Lemma stop_step_check (s : Sys) :
  is_alive (th (obj s)) = false -> stop_step StopCheck s = (s, Some StopRet).
Proof. intros H. unfold stop_step. rewrite H. reflexivity. Qed.

Lemma main_step_stop_check o nw lg nc td tr :
  is_alive (th o) = false ->
  main_step (mkSys o nw lg nc (InStop StopCheck) td tr)
  = mkSys o nw lg nc (InStop StopRet) td tr.
Proof.
  intros H. unfold main_step. cbn [main].
  rewrite stop_step_check by exact H. reflexivity.
Qed.

Lemma main_step_stop_ret o nw lg nc td tr :
  main_step (mkSys o nw lg nc (InStop StopRet) td tr)
  = mkSys o nw lg nc Idle td (EvReturn CStop :: tr).
Proof. reflexivity. Qed.



Lemma main_step_reset_clear o nw lg nc td tr :
  main_step (mkSys o nw lg nc (InReset (ResetStop StopClear)) td tr)
  = mkSys (set_running false o) nw lg nc (InReset (ResetStop StopCheck)) td tr.
Proof. reflexivity. Qed.

Lemma main_step_reset_check o nw lg nc td tr :
  is_alive (th o) = false ->
  main_step (mkSys o nw lg nc (InReset (ResetStop StopCheck)) td tr)
  = mkSys o nw lg nc (InReset (ResetStop StopRet)) td tr.
Proof.
  intros H. unfold main_step. cbn [main].
  rewrite stop_step_check by exact H. reflexivity.
Qed.

Lemma main_step_reset_stop_ret o nw lg nc td tr :
  main_step (mkSys o nw lg nc (InReset (ResetStop StopRet)) td tr)
  = mkSys o nw lg nc (InReset ResetThread) td (EvReturn CStop :: tr).
Proof. reflexivity. Qed.

Lemma main_step_reset_thread o nw lg nc td tr :
  main_step (mkSys o nw lg nc (InReset ResetThread) td tr)
  = mkSys (reset_thread o) nw lg nc (InReset ResetData) td tr.
Proof. reflexivity. Qed.

Lemma main_step_reset_data o nw lg nc td tr :
  main_step (mkSys o nw lg nc (InReset ResetData) td tr)
  = mkSys (reset_data o) nw lg nc (InReset ResetFlag) td tr.
Proof. reflexivity. Qed.

Lemma main_step_reset_flag o nw lg nc td tr :
  main_step (mkSys o nw lg nc (InReset ResetFlag) td tr)
  = mkSys (reset_flag o) nw lg nc (InReset ResetRet) td tr.
Proof. reflexivity. Qed.

Lemma main_step_reset_ret o nw lg nc td tr :
  main_step (mkSys o nw lg nc (InReset ResetRet) td tr)
  = mkSys o nw lg nc Idle td (EvReturn CReset :: tr).
Proof. reflexivity. Qed.

(** The steps of [reset()] on a connector whose thread is not alive
    amount to [reset_idle], with the return of its [stop()] on the way. *)
Lemma reset_steps (s : Sys) :
  main s = InReset (ResetStop StopClear) ->
  is_alive (th (obj s)) = false ->
  exec connection_subclass refresh (repeat MainT 7) s
  = mkSys (reset_idle (obj s)) (now s) (log s) (ncalls s) Idle (todo s)
      (EvReturn CReset :: EvReturn CStop :: trace s).
Proof.
  intros Hm Hal. destruct s as [o nw lg nc mn td tr].
  cbn [main obj now log ncalls todo trace] in *. subst mn.
  cbn [repeat exec fold_left step].
  rewrite main_step_reset_clear.
  rewrite main_step_reset_check by exact Hal.
  rewrite main_step_reset_stop_ret, main_step_reset_thread,
    main_step_reset_data, main_step_reset_flag, main_step_reset_ret.
  reflexivity.
Qed.

(** C3, as the code has it: [reset()] does empty the cache and clear
    [_connected], but it re-initialises the thread part with
    [threading.Thread.__init__(self)], no arguments given, where the
    constructor passed [target=self._run], a name and [daemon=True].
    The object after [reset()] therefore differs from every new one,
    and where [start()] on a new connector enters [_run], [start()]
    after [reset()] runs a thread with no target, which ends at once
    without entering [_run]. *)
Theorem reset_forgets_the_loop (o : t) (c : ConnectorClass) (url : string) (t0 : Z) :
  DataConnector._data (dc (reset_idle o)) = ∅
  /\ connected (reset_idle o) = false
  /\ th (new c url) = Thread_init (Some RunLoop) (Some (runner_name url)) (Some true)
  /\ th (reset_idle o) = Thread_init None None None
  /\ reset_idle o <> new c url
  /\ run_state (th (obj (exec connection_subclass refresh [MainT; MainT; LoopT] (boot c url t0 [CStart]))))
     = Alive (PWhile 0)
  /\ run_state (th (obj (exec connection_subclass refresh [MainT; MainT; LoopT]
                           (mkSys (reset_idle o) t0 [] 0 Idle [CStart] []))))
     = Finished None
  /\ ncalls (exec connection_subclass refresh [MainT; MainT; LoopT]
               (mkSys (reset_idle o) t0 [] 0 Idle [CStart] [])) = 0%nat.
Proof.
  repeat split.
  intros H. apply (f_equal (fun x => _target (th x))) in H. discriminate H.
Qed.

(** C6, at the input where the code departs from it: a [refresh()] that
    returns within one reading of the clock leaves a full second until
    the target, the counter comes out as [(20 - 20) % 20 = 0], and the
    loop calls [refresh()] again at once, never sleeping. With the clock
    set back by a quarter of a second during the call, a second and a
    quarter are left and the counter comes out as 15: five sleeps, a
    quarter of a second. *)
Theorem full_period_left_is_not_slept (t0 : Z) :
  next_counter (t0 + second_ns) t0 = 0%Z
  /\ next_counter (t0 + second_ns) (t0 - 250000000) = 15%Z
  /\ (let instant := fun _ : nat => mkRefresh [] 0 Returns in
      let s := mkSys (mk (DataConnector.new RESTDataConnectorC)
                        (mkThread (Some RunLoop) None (Some true) (Alive (PWhile 0)))
                        "127.0.0.1" true false)
                 t0 [] 0 Idle [] [] in
      let s' := exec connection_subclass instant [LoopT; LoopT; LoopT] s in
      run_state (th (obj s')) = Alive (PRefresh (t0 + 0 + second_ns) 1)
      /\ ncalls s' = 2%nat
      /\ count_sleeps (trace s') = 0%nat).
Proof.
  assert (H1 : next_counter (t0 + second_ns) t0 = 0%Z).
  { rewrite next_counter_spec.
    replace (t0 + second_ns - t0)%Z with second_ns by lia. reflexivity. }
  assert (H2 : next_counter (t0 + second_ns) (t0 - 250000000) = 15%Z).
  { rewrite next_counter_spec.
    replace (t0 + second_ns - (t0 - 250000000))%Z with 1250000000%Z
      by (unfold second_ns; lia).
    reflexivity. }
  split; [exact H1|]. split; [exact H2|].
  intros instant s s'. subst s' s. cbn [exec fold_left step].
  set (o1 := mk (DataConnector.new RESTDataConnectorC)
               (mkThread (Some RunLoop) None (Some true)
                  (Alive (PRefresh (t0 + second_ns) 0)))
               "127.0.0.1" true false).
  assert (E1 : loop_step connection_subclass instant
                 (mkSys (mk (DataConnector.new RESTDataConnectorC)
                           (mkThread (Some RunLoop) None (Some true) (Alive (PWhile 0)))
                           "127.0.0.1" true false)
                    t0 [] 0 Idle [] [])
               = mkSys o1 t0 [] 1 Idle [] [EvRefresh 0]) by reflexivity.
  rewrite E1. clear E1.
  set (o2 := mk (DataConnector.new RESTDataConnectorC)
               (mkThread (Some RunLoop) None (Some true) (Alive (PWhile 0)))
               "127.0.0.1" true true).
  assert (E2 : loop_step connection_subclass instant (mkSys o1 t0 [] 1 Idle [] [EvRefresh 0])
               = mkSys o2 (t0 + 0) [] 1 Idle [] [EvRefresh 0]).
  { unfold loop_step, o1, o2. cbn -[next_counter Z.add].
    replace (next_counter (t0 + second_ns) (t0 + 0)) with 0%Z
      by (rewrite Z.add_0_r; symmetry; exact H1).
    reflexivity. }
  rewrite E2. clear E2.
  repeat split.
Qed.

End PollingLifecycle.

(** *** What the counter does when the clock has moved on *)

Section PollingCadence.

Import Polling.

Variable connection_subclass : string -> option string.
Variable refresh : nat -> RefreshCall.

(** A [refresh()] that returns at or after its target is followed at
    once by the next one: the counter is zero and nothing is slept. *)
Lemma late_refresh_is_followed_at_once (s : Sys) (target : Z) (n : nat) :
  run_state (th (obj s)) = Alive (PRefresh target n) ->
  r_outcome (refresh n) = Returns ->
  _running (obj s) = true ->
  (target - (now s + r_elapsed (refresh n)) <= 0)%Z ->
  let s1 := loop_step connection_subclass refresh s in
  let s2 := loop_step connection_subclass refresh s1 in
  run_state (th (obj s1)) = Alive (PWhile 0)
  /\ run_state (th (obj s2)) = Alive (PRefresh (now s1 + second_ns) (ncalls s))
  /\ count_sleeps (trace s2) = count_sleeps (trace s).
Proof.
  intros Hpc Hout Hrun Hlate s1 s2.
  destruct (loop_on_refresh_return connection_subclass refresh s target n Hpc Hout)
    as (_ & Hnow & Hpc1 & Hsl).
  fold s1 in Hnow, Hpc1, Hsl.
  rewrite next_counter_late in Hpc1 by (rewrite Hnow; exact Hlate).
  destruct (loop_step_frame connection_subclass refresh s) as (Hr1 & _ & _). fold s1 in Hr1.
  assert (Hrun1 : _running (obj s1) = true) by congruence.
  destruct (loop_at_zero_refreshes connection_subclass refresh s1 Hpc1 Hrun1) as (Hpc2 & Htr2).
  fold s2 in Hpc2, Htr2.
  assert (Hn1 : ncalls s1 = ncalls s).
  { unfold s1, loop_step. rewrite Hpc, Hout. simpl.
    apply (do_stores_frame (r_stores (refresh n)) s). }
  repeat split; try assumption.
  - rewrite Hpc2, Hn1. reflexivity.
  - rewrite Htr2. simpl. exact Hsl.
Qed.

(** A [refresh()] that returns with [k] whole increments left, fewer
    than [tps], is followed by [k] sleeps and nothing else: no
    [refresh()] is called in between, the count of calls begun is what
    it was. The loop is then at the test with the counter at zero, [k]
    increments later. *)
Lemma early_refresh_is_slept_off (s : Sys) (target : Z) (n k : nat) :
  run_state (th (obj s)) = Alive (PRefresh target n) ->
  r_outcome (refresh n) = Returns ->
  _running (obj s) = true ->
  (0 < k < 20)%nat ->
  (Z.of_nat k * sleep_ns <= target - (now s + r_elapsed (refresh n))
   < (Z.of_nat k + 1) * sleep_ns)%Z ->
  let s' := exec connection_subclass refresh (repeat LoopT (2 * k)) (loop_step connection_subclass refresh s) in
  run_state (th (obj s')) = Alive (PWhile 0)
  /\ count_sleeps (trace s') = (count_sleeps (trace s) + k)%nat
  /\ now s' = (now s + r_elapsed (refresh n) + Z.of_nat k * sleep_ns)%Z
  /\ ncalls s' = ncalls s.
Proof.
  intros Hpc Hout Hrun Hk Hrem.
  destruct (loop_on_refresh_return connection_subclass refresh s target n Hpc Hout)
    as (_ & Hnow & Hpc1 & Hsl).
  set (s1 := loop_step connection_subclass refresh s) in *.
  rewrite (next_counter_early _ _ k Hk) in Hpc1 by (rewrite Hnow; exact Hrem).
  destruct (loop_step_frame connection_subclass refresh s) as (Hr1 & _ & _). fold s1 in Hr1.
  assert (Hrun1 : _running (obj s1) = true) by congruence.
  destruct k as [|k]; [lia|].
  assert (Hk' : (k < 19)%nat) by lia.
  destruct (loop_sleeps connection_subclass refresh k s1 Hk' Hpc1 Hrun1)
    as (Ha & Hb & Hc & Hd & _).
  assert (Hn1 : ncalls s1 = ncalls s).
  { unfold s1, loop_step. rewrite Hpc, Hout. simpl.
    apply (do_stores_frame (r_stores (refresh n)) s). }
  cbv zeta. repeat split; try assumption.
  - rewrite Hb, Hsl. reflexivity.
  - rewrite Hc, Hnow. reflexivity.
  - rewrite Hd. exact Hn1.
Qed.

End PollingCadence.

Section PollingCadenceWitness.

Import Polling.

Lemma late_refresh_witness :
  let slow := fun _ : nat => mkRefresh [] 1500000000 Returns in
  let s := mkSys (mk (DataConnector.new RESTDataConnectorC)
                    (mkThread (Some RunLoop) None (Some true)
                       (Alive (PRefresh 1000000000 0)))
                    "127.0.0.1" true false)
             0 [] 1 Idle [] [] in
  run_state (th (obj (loop_step no_subclass slow s))) = Alive (PWhile 0)
  /\ count_sleeps (trace (loop_step no_subclass slow (loop_step no_subclass slow s))) = 0%nat.
Proof.
  intros slow s.
  pose proof (late_refresh_is_followed_at_once no_subclass slow s 1000000000%Z 0%nat
                eq_refl eq_refl eq_refl ltac:(vm_compute; discriminate)) as H.
  exact (conj (proj1 H) (proj2 (proj2 H))).
Defined.

Lemma early_refresh_witness :
  let quick := fun _ : nat => mkRefresh [] 730000000 Returns in
  let s := mkSys (mk (DataConnector.new RESTDataConnectorC)
                    (mkThread (Some RunLoop) None (Some true)
                       (Alive (PRefresh 1000000000 0)))
                    "127.0.0.1" true false)
             0 [] 1 Idle [] [] in
  count_sleeps (trace (exec no_subclass quick (repeat LoopT (2 * 5)) (loop_step no_subclass quick s)))
    = (count_sleeps (trace s) + 5)%nat
  /\ ncalls (exec no_subclass quick (repeat LoopT (2 * 5)) (loop_step no_subclass quick s))
    = ncalls s.
Proof.
  intros quick s.
  pose proof (early_refresh_is_slept_off no_subclass quick s 1000000000%Z 0%nat 5%nat
                eq_refl eq_refl eq_refl ltac:(lia)
                ltac:(vm_compute; split; [discriminate | reflexivity])) as H.
  exact (conj (proj1 (proj2 H)) (proj2 (proj2 (proj2 H)))).
Defined.

End PollingCadenceWitness.

(** * Further properties of the two modules *)

(** ** default *)

Section DefaultProps.

Import Default.

(** [default] hands back a blank ([None], the empty string, empty
    bytes) only when the fallback it was given is blank itself. *)
Theorem default_blank_only_from_fallback (arg dflt : Obj) (ec : bool) :
  blank (default arg dflt ec) = true -> blank dflt = true.
Proof.
  unfold default.
  destruct (is_none arg) eqn:E1; [tauto|].
  destruct (is_empty_str arg) eqn:E2; [tauto|].
  destruct (is_empty_bytes arg) eqn:E3; [tauto|].
  destruct (ec && is_collection arg && (py_len arg =? 0)%nat).
  - discriminate.
  - unfold blank. rewrite E1, E2, E3. discriminate.
Qed.

Lemma default_blank_only_from_fallback_witness :
  blank (OPy (PStr EmptyString)) = true.
Proof.
  exact (default_blank_only_from_fallback (OPy PNone) (OPy (PStr EmptyString)) false
           eq_refl).
Defined.

(** Numbers and booleans are content for [default], zero and [False]
    included, whatever the flag; and without the flag, applying
    [default] twice with the same fallback changes nothing more. *)
Theorem default_keeps_numbers (arg dflt : Obj) (ec : bool) (z : Z) (q : Q) (b : bool) :
  default (OPy (PInt z)) dflt ec = OPy (PInt z)
  /\ default (OPy (PFloat q)) dflt ec = OPy (PFloat q)
  /\ default (OPy (PBool b)) dflt ec = OPy (PBool b)
  /\ default (default arg dflt false) dflt false = default arg dflt false.
Proof.
  repeat split; try (unfold default; simpl; rewrite ?andb_false_r; reflexivity).
  unfold default at 2 3. simpl.
  destruct (is_none arg) eqn:E1; [|destruct (is_empty_str arg) eqn:E2;
    [|destruct (is_empty_bytes arg) eqn:E3]].
  1-3: unfold default; simpl;
       destruct (is_none dflt); [reflexivity|];
       destruct (is_empty_str dflt); [reflexivity|];
       destruct (is_empty_bytes dflt); reflexivity.
  unfold default. simpl. rewrite E1, E2, E3. reflexivity.
Qed.

(** With [empty_collection] set, an empty collection that is not blank
    (an empty list) is replaced, not by the fallback but by the function
    [default] itself; without the flag it is handed back. *)
Theorem default_empty_collection (arg dflt : Obj) :
  is_collection arg = true ->
  py_len arg = 0%nat ->
  blank arg = false ->
  default arg dflt true = default_function
  /\ default arg dflt false = arg.
Proof.
  intros Hc Hl Hb. unfold blank in Hb.
  apply orb_false_iff in Hb as [Hb E3]. apply orb_false_iff in Hb as [E1 E2].
  unfold default. rewrite E1, E2, E3, Hc, Hl. split; reflexivity.
Qed.

Lemma default_empty_collection_witness :
  default (OPy (PList [])) (OPy (PInt 7)) true = default_function
  /\ default (OPy (PList [])) (OPy (PInt 7)) false = OPy (PList []).
Proof.
  exact (default_empty_collection (OPy (PList [])) (OPy (PInt 7))
           eq_refl eq_refl eq_refl).
Defined.

End DefaultProps.

(** ** ScheduledEvent, rendered *)

Section ScheduledEventRenderProps.

Import ScheduledEventRender.

(** An event built by the constructor renders its [actual] value, as
    text and inside its representation: the branch for an [actual] of
    [None] is only taken when [scheduled] is [None] as well. *)
Theorem ScheduledEvent_renders_actual (fmt : PyVal -> string) (cn : string)
    (s a : PyVal) :
  __str__ fmt (ScheduledEvent.__init__ s a)
    = fmt (ScheduledEvent.actual (ScheduledEvent.__init__ s a))
  /\ __repr__ fmt cn (ScheduledEvent.__init__ s a)
     = "<" ++ cn ++ " " ++ fmt (ScheduledEvent.actual (ScheduledEvent.__init__ s a)) ++ ">".
Proof.
  unfold __str__, __repr__. simpl. unfold py_or.
  destruct (truthy a) eqn:Ha.
  - destruct a; try discriminate Ha; split; reflexivity.
  - destruct s; split; reflexivity.
Qed.

End ScheduledEventRenderProps.

(** ** Position, indexed and measured *)

Section PositionOpsProps.

Import PositionOps.

(** A position indexes like the pair (latitude, longitude): 0 and -2
    give the latitude, 1 and -1 the longitude, and exactly the indices
    from -2 to 1 succeed; every other index raises [IndexError]. *)
Theorem Position_index (lat lon : Q) (alt hdg : option Q) (i : Z) :
  __getitem__ (Position.__init__ lat lon alt hdg) i =
    if (i =? 0)%Z || (i =? -2)%Z then Ok lat
    else if (i =? 1)%Z || (i =? -1)%Z then Ok lon
    else Raise IndexError.
Proof.
  unfold __getitem__, py_index. simpl.
  change (Z.of_nat 2) with 2%Z.
  destruct (Z.eqb_spec i 0) as [->|H0]; [reflexivity|].
  destruct (Z.eqb_spec i (-2)) as [->|H1]; [reflexivity|].
  destruct (Z.eqb_spec i 1) as [->|H2]; [reflexivity|].
  destruct (Z.eqb_spec i (-1)) as [->|H3]; [reflexivity|].
  simpl.
  destruct (Z.ltb_spec i 0).
  - destruct (Z.leb_spec 0 (i + 2)); [exfalso; lia | reflexivity].
  - destruct (Z.leb_spec 0 i); [|reflexivity].
    destruct (Z.ltb_spec i 2); [exfalso; lia | reflexivity].
Qed.

(** The distance between two positions is computed from their
    latitudes and longitudes alone: it succeeds whether or not altitude
    and heading are present, and they do not enter the result. *)
Theorem Position_distance_ignores_altitude (geo : Q * Q -> Q * Q -> Q)
    (lat1 lon1 lat2 lon2 : Q) (alt1 hdg1 alt2 hdg2 : option Q) :
  calculate_distance geo (Position.__init__ lat1 lon1 alt1 hdg1)
                         (Position.__init__ lat2 lon2 alt2 hdg2)
  = calculate_distance geo (Position.__init__ lat1 lon1 None None)
                           (Position.__init__ lat2 lon2 None None)
  /\ is_ok (calculate_distance geo (Position.__init__ lat1 lon1 alt1 hdg1)
                                   (Position.__init__ lat2 lon2 alt2 hdg2)) = true.
Proof. split; reflexivity. Qed.

End PositionOpsProps.

(** ** DataConnector, read by index *)

Section IndexProps.

Import DataConnector.

(** Index-style write then read: the key just written reads back its
    value, every other key reads as before, on a connector of any
    class. *)
Theorem setitem_getitem (c : t) (k k' : string) (v : PyVal) :
  __getitem__ (__setitem__ c k v) k' =
    if String.eqb k k' then Ok v else __getitem__ c k'.
Proof.
  unfold __getitem__, __setitem__, store. simpl.
  destruct (String.eqb_spec k k') as [->|Hne].
  - rewrite lookup_insert_eq. reflexivity.
  - rewrite lookup_insert_ne by exact Hne. reflexivity.
Qed.

(** On a connector that keeps [DataConnector.load], [load] and the
    index read agree on every stored key; on a key that is not stored
    the index read raises [KeyError] for that key where [load] answers
    with the fallback. *)
Theorem load_agrees_with_getitem (c : t) (k : string) (d : PyVal) :
  __class__ c <> DummyDataConnectorC ->
  match __getitem__ c k with
  | Ok v => load c k d = Ok v
  | Raise e => e = KeyError k /\ load c k d = Ok d
  end.
Proof.
  intros Hc. unfold __getitem__, load, base_load, dict_get.
  destruct (__class__ c); try congruence;
    destruct (_data c !! k); auto.
Qed.

Lemma load_agrees_with_getitem_witness :
  load (__setitem__ (new RESTDataConnectorC) "speed" (PInt 160)) "speed" PNone
  = Ok (PInt 160).
Proof.
  refine (load_agrees_with_getitem
            (__setitem__ (new RESTDataConnectorC) "speed" (PInt 160)) "speed" PNone _).
  discriminate.
Defined.

(** A [DummyDataConnector] answers every [load] with ['Dummy value'],
    whatever was stored and whatever the key and fallback, while its
    index read still returns what was stored last. *)
Theorem Dummy_load_is_constant (h : list (string * PyVal)) (k : string) (v d : PyVal) :
  load (store_all h (new DummyDataConnectorC)) k d = Ok (PStr "Dummy value")
  /\ __getitem__ (store_all (h ++ [(k, v)])%list (new DummyDataConnectorC)) k = Ok v.
Proof.
  split.
  - unfold load. rewrite store_all_class. reflexivity.
  - unfold __getitem__. rewrite store_all_lookup, last_stored_app. simpl.
    rewrite String.eqb_refl. reflexivity.
Qed.

End IndexProps.

(** ** The decorator store *)

Section StoreDecoratorProps.

Import StoreDecorator.

Lemma key_of_named (s : string) (m : Method) :
  s <> EmptyString -> key_of (Some s) m = s.
Proof.
  intros Hs. unfold key_of. destruct (String.eqb_spec s EmptyString); congruence.
Qed.

Lemma wrapper_returns (name : option string) (m : Method)
    (c c1 : DataConnector.t) (v : PyVal) :
  on_connector m c = (Ok v, c1) ->
  wrapper name m (RConnector c)
  = (Ok v, RConnector (DataConnector.store c1 (key_of name m) v)).
Proof.
  intros Hm. unfold wrapper. rewrite Hm.
  unfold DataConnector.__setitem__, DataConnector.__getitem__.
  cbn [DataConnector._data DataConnector.store].
  rewrite lookup_insert_eq. reflexivity.
Qed.

(** A method decorated with [@store("k")], [k] not empty, called on a
    connector: when the method returns [v], the call returns [v], the
    cache holds [v] under [k], and every other key is as the method
    left it. *)
Theorem store_decorator_stores_result (k : string) (m : Method)
    (c c1 : DataConnector.t) (v : PyVal) :
  k <> EmptyString ->
  on_connector m c = (Ok v, c1) ->
  call (decorate (store (AVal (PStr k))) m) (RConnector c)
    = Some (Ok v, RConnector (DataConnector.store c1 k v))
  /\ DataConnector.__getitem__ (DataConnector.store c1 k v) k = Ok v
  /\ (forall k', k' <> k ->
        DataConnector._data (DataConnector.store c1 k v) !! k'
        = DataConnector._data c1 !! k').
Proof.
  intros Hk Hm.
  change (call (decorate (store (AVal (PStr k))) m) (RConnector c))
    with (Some (wrapper (Some k) m (RConnector c))).
  rewrite (wrapper_returns _ _ _ _ _ Hm), (key_of_named k m Hk).
  repeat split.
  - unfold DataConnector.__getitem__. cbn [DataConnector._data DataConnector.store].
    rewrite lookup_insert_eq. reflexivity.
  - intros k' Hne. cbn [DataConnector._data DataConnector.store].
    apply lookup_insert_ne. congruence.
Qed.

Lemma store_decorator_stores_result_witness :
  let m := mkMethod "position"
             (fun c => (Ok (PInt 52), c)) (fun o => (Ok (PInt 52), o)) in
  call (decorate (store (AVal (PStr "pos"))) m)
       (RConnector (DataConnector.new RESTDataConnectorC))
  = Some (Ok (PInt 52),
          RConnector (DataConnector.store (DataConnector.new RESTDataConnectorC)
                        "pos" (PInt 52))).
Proof.
  intros m.
  refine (proj1 (store_decorator_stores_result "pos" m
            (DataConnector.new RESTDataConnectorC)
            (DataConnector.new RESTDataConnectorC) (PInt 52) _ eq_refl)).
  discriminate.
Defined.

(** The three ways to leave the key out, [@store] on the method itself,
    [@store()] and [@store("")], all store under the method's own
    name. *)
Theorem store_decorator_default_key (m : Method) (c c1 : DataConnector.t) (v : PyVal) :
  on_connector m c = (Ok v, c1) ->
  call (store (ACallable m)) (RConnector c)
    = Some (Ok v, RConnector (DataConnector.store c1 (__name__ m) v))
  /\ call (decorate (store (AVal PNone)) m) (RConnector c)
     = call (store (ACallable m)) (RConnector c)
  /\ call (decorate (store (AVal (PStr EmptyString))) m) (RConnector c)
     = call (decorate (store (AVal PNone)) m) (RConnector c).
Proof.
  intros Hm.
  assert (Hkey : key_of (Some (__name__ m)) m = __name__ m).
  { unfold key_of. destruct (String.eqb _ _); reflexivity. }
  change (call (store (ACallable m)) (RConnector c))
    with (Some (wrapper (Some (__name__ m)) m (RConnector c))).
  change (call (decorate (store (AVal PNone)) m) (RConnector c))
    with (Some (wrapper None m (RConnector c))).
  change (call (decorate (store (AVal (PStr EmptyString))) m) (RConnector c))
    with (Some (wrapper (Some EmptyString) m (RConnector c))).
  rewrite !(wrapper_returns _ _ _ _ _ Hm), Hkey.
  repeat split.
Qed.

Lemma store_decorator_default_key_witness :
  let m := mkMethod "position"
             (fun c => (Ok (PInt 52), c)) (fun o => (Ok (PInt 52), o)) in
  call (store (ACallable m)) (RConnector (DataConnector.new RESTDataConnectorC))
  = Some (Ok (PInt 52),
          RConnector (DataConnector.store (DataConnector.new RESTDataConnectorC)
                        "position" (PInt 52))).
Proof.
  intros m.
  exact (proj1 (store_decorator_default_key m
           (DataConnector.new RESTDataConnectorC)
           (DataConnector.new RESTDataConnectorC) (PInt 52) eq_refl)).
Defined.

(** The wrapper is transparent to the caller: on a connector and on any
    other receiver it returns what the method returns or raises what the
    method raises. When the method raises, the connector is left as the
    method left it, with nothing stored; a receiver that is no connector
    is never stored into. And [store] given a number raises
    [ValueError]. *)
Theorem store_decorator_is_transparent (name : option string) (m : Method)
    (c : DataConnector.t) (o : PyVal) (z : Z) :
  fst (wrapper name m (RConnector c)) = fst (on_connector m c)
  /\ snd (wrapper name m (RConnector c))
     = RConnector
         match fst (on_connector m c) with
         | Ok v => DataConnector.store (snd (on_connector m c)) (key_of name m) v
         | Raise _ => snd (on_connector m c)
         end
  /\ wrapper name m (ROther o) = (fst (on_other m o), ROther (snd (on_other m o)))
  /\ store (AVal (PInt z)) = Raised ValueError.
Proof.
  destruct (on_connector m c) as [[v|e] c1] eqn:Hm.
  - rewrite (wrapper_returns name m c c1 v Hm). cbn [fst snd].
    repeat split. unfold wrapper. destruct (on_other m o); reflexivity.
  - unfold wrapper. rewrite Hm. destruct (on_other m o); repeat split.
Qed.

End StoreDecoratorProps.

(** ** PollingDataConnector: the flags and the cache along a run *)

Section PollingMoreProps.

Import Polling.

Variable connection_subclass : string -> option string.
Variable refresh : nat -> RefreshCall.

Lemma main_step_keeps_disconnected (s : Sys) :
  _connected (obj s) = false -> _connected (obj (main_step s)) = false.
Proof.
  destruct s as [o nw lg nc mn td tr]. cbn [obj]. intros Hc.
  unfold main_step. cbn [main].
  destruct mn as [| |p|[p| | | |]|k v]; cbn.
  - destruct td as [|[] rest]; cbn; exact Hc.
  - destruct (run_state (th o)); cbn; exact Hc.
  - destruct p; cbn; try exact Hc; destruct (is_alive (th o)); exact Hc.
  - destruct p; cbn; try exact Hc; destruct (is_alive (th o)); exact Hc.
  - exact Hc.
  - exact Hc.
  - reflexivity.
  - exact Hc.
  - exact Hc.
Qed.

(** Only one step ever sets [_connected]: the step of the loop in which
    a [refresh()] call returns. No call of the foreground and no other
    step of the loop turns it from false to true. *)
Theorem connected_set_only_by_refresh (s : Sys) (who : Tid) :
  _connected (obj s) = false ->
  _connected (obj (step connection_subclass refresh s who)) = true ->
  who = LoopT
  /\ exists target n,
       run_state (th (obj s)) = Alive (PRefresh target n)
       /\ r_outcome (refresh n) = Returns.
Proof.
  intros Hc Hafter. destruct who; cbn [step] in Hafter.
  - rewrite (main_step_keeps_disconnected s Hc) in Hafter. discriminate.
  - split; [reflexivity|]. revert Hafter. unfold loop_step.
    destruct (run_state (th (obj s))) as [|[|c|c|tg n]|e] eqn:Hrs.
    + congruence.
    + destruct (_target (th (obj s))) as [[]|]; cbn; congruence.
    + destruct (_running (obj s)); [destruct (negb (c =? 0)%Z)|]; cbn; congruence.
    + cbn. congruence.
    + destruct (do_stores_frame (r_stores (refresh n)) s) as (_ & _ & Hk & _).
      destruct (r_outcome (refresh n)) as [|e] eqn:Hout.
      * intros _. exists tg, n. split; [reflexivity | exact Hout].
      * destruct (caught connection_subclass e); cbn; congruence.
    + congruence.
Qed.

(** One failed cycle: from the loop test with the counter at zero, the
    call and its connectivity error take two steps of the loop and lead
    back to the loop test with the counter at zero. *)
Lemma failed_cycle (s : Sys) (msg : string) :
  run_state (th (obj s)) = Alive (PWhile 0) ->
  _running (obj s) = true ->
  r_outcome (refresh (ncalls s)) = Raises (APIConnectionError msg) ->
  let s2 := loop_step connection_subclass refresh (loop_step connection_subclass refresh s) in
  run_state (th (obj s2)) = Alive (PWhile 0)
  /\ _running (obj s2) = true
  /\ ncalls s2 = S (ncalls s)
  /\ count_sleeps (trace s2) = count_sleeps (trace s)
  /\ _connected (obj s2) = _connected (obj s)
  /\ log s2 = msg :: log s.
Proof.
  intros Hpc Hrun Hout.
  assert (E1 : loop_step connection_subclass refresh s
               = emit (EvRefresh (ncalls s))
                   (count_call
                      (upd_obj (set_run (Alive (PRefresh (now s + second_ns) (ncalls s)))) s))).
  { unfold loop_step. rewrite Hpc, Hrun. reflexivity. }
  rewrite E1. set (s1 := emit _ _).
  destruct (do_stores_frame (r_stores (refresh (ncalls s))) s1)
    as (_ & Hr & Hc & _ & Hl & Hn & _).
  pose proof (do_stores_sleeps (r_stores (refresh (ncalls s))) s1) as Hsl.
  unfold loop_step.
  change (run_state (th (obj s1))) with (Alive (PRefresh (now s + second_ns) (ncalls s))).
  cbv beta iota zeta. rewrite Hout. cbn [caught log_error emit upd_obj tick obj th run_state set_run
    set_th _running _connected ncalls trace log count_sleeps List.filter length].
  fold (count_sleeps (trace (do_stores (r_stores (refresh (ncalls s))) s1))).
  rewrite Hr, Hc, Hl, Hn, Hsl. repeat split. exact Hrun.
Qed.

(** While every [refresh()] fails with a connectivity error and the
    connector is running, the loop calls [refresh()] again and again
    with no sleep in between: after [2 * k] of its steps it has made
    [k] more calls, logged [k] more errors, slept not once, left
    [_connected] alone and is still alive at the loop test. *)
Theorem failing_refresh_is_retried_without_pause (k : nat) : forall s : Sys,
  (forall n, exists msg, r_outcome (refresh n) = Raises (APIConnectionError msg)) ->
  run_state (th (obj s)) = Alive (PWhile 0) ->
  _running (obj s) = true ->
  let s' := exec connection_subclass refresh (repeat LoopT (2 * k)) s in
  run_state (th (obj s')) = Alive (PWhile 0)
  /\ ncalls s' = (ncalls s + k)%nat
  /\ length (log s') = (length (log s) + k)%nat
  /\ count_sleeps (trace s') = count_sleeps (trace s)
  /\ _connected (obj s') = _connected (obj s)
  /\ _running (obj s') = true.
Proof.
  induction k as [|k IH]; intros s Hfail Hpc Hrun s'; subst s'.
  - change (exec connection_subclass refresh (repeat LoopT (2 * 0)) s) with s.
    repeat split; try assumption; lia.
  - rewrite exec_two_more.
    destruct (Hfail (ncalls s)) as [msg Hmsg].
    destruct (failed_cycle s msg Hpc Hrun Hmsg) as (H1 & H2 & H3 & H4 & H5 & H6).
    destruct (IH _ Hfail H1 H2) as (I1 & I2 & I3 & I4 & I5 & I6).
    rewrite I1, I2, I3, I4, I5, I6, H3, H4, H5, H6.
    repeat split; simpl; lia.
Qed.

(** Whatever a [refresh()] stored is in the cache once the call is
    over, whether it returned or raised: [load] then answers with the
    value the call stored last under the key, and with what it answered
    before the call for a key the call did not store. *)
Theorem refresh_stores_reach_load (s : Sys) (target : Z) (n : nat)
    (key : string) (d : PyVal) :
  run_state (th (obj s)) = Alive (PRefresh target n) ->
  DataConnector.__class__ (dc (obj s)) <> DummyDataConnectorC ->
  DataConnector.load (dc (obj (loop_step connection_subclass refresh s))) key d =
    match DataConnector.last_stored key (r_stores (refresh n)) with
    | Some v => Ok v
    | None => DataConnector.load (dc (obj s)) key d
    end.
Proof.
  intros Hpc Hcls.
  assert (Hdc : dc (obj (loop_step connection_subclass refresh s))
                = DataConnector.store_all (r_stores (refresh n)) (dc (obj s))).
  { unfold loop_step. rewrite Hpc. cbv zeta.
    rewrite <- do_stores_data.
    destruct (r_outcome (refresh n)) as [|e']; [|destruct (caught connection_subclass e')];
      reflexivity. }
  rewrite Hdc. unfold DataConnector.load.
  rewrite store_all_class.
  destruct (DataConnector.__class__ (dc (obj s))); try congruence;
    unfold DataConnector.base_load, DataConnector.dict_get;
    rewrite store_all_lookup;
    destruct (DataConnector.last_stored key (r_stores (refresh n))); reflexivity.
Qed.

Lemma main_step_stop_clear o nw lg nc td tr :
  main_step (mkSys o nw lg nc (InStop StopClear) td tr)
  = mkSys (set_running false o) nw lg nc (InStop StopCheck) td tr.
Proof. reflexivity. Qed.

(** [stop()] on a connector whose thread is not alive returns in three
    steps of the foreground without waiting; it clears [_running] and
    keeps the cache and [_connected] as they were. *)
Theorem stop_keeps_the_cache (s : Sys) :
  main s = InStop StopClear ->
  is_alive (th (obj s)) = false ->
  let s' := exec connection_subclass refresh (repeat MainT 3) s in
  main s' = Idle
  /\ trace s' = EvReturn CStop :: trace s
  /\ dc (obj s') = dc (obj s)
  /\ _connected (obj s') = _connected (obj s)
  /\ _running (obj s') = false.
Proof.
  intros Hm Hal. destruct s as [o nw lg nc mn td tr].
  cbn [main obj trace] in *. subst mn.
  cbn [repeat exec fold_left step].
  rewrite main_step_stop_clear.
  rewrite main_step_stop_check by exact Hal.
  rewrite main_step_stop_ret. repeat split.
Qed.

(** [reset()] on a connector whose thread is not alive discards the
    cache: afterwards [load] answers every key with the fallback, every
    index read raises [KeyError], and [connected] reads false. *)
Theorem reset_discards_the_cache (s : Sys) (key : string) (d : PyVal) :
  main s = InReset (ResetStop StopClear) ->
  is_alive (th (obj s)) = false ->
  DataConnector.__class__ (dc (obj s)) <> DummyDataConnectorC ->
  let s' := exec connection_subclass refresh (repeat MainT 7) s in
  main s' = Idle
  /\ DataConnector.load (dc (obj s')) key d = Ok d
  /\ DataConnector.__getitem__ (dc (obj s')) key = Raise (KeyError key)
  /\ connected (obj s') = false.
Proof.
  intros Hm Hal Hcls s'. subst s'.
  rewrite (reset_steps connection_subclass refresh s Hm Hal). cbn [main obj].
  repeat split.
  unfold DataConnector.load. cbn.
  destruct (DataConnector.__class__ (dc (obj s))); try congruence; reflexivity.
Qed.

End PollingMoreProps.

Section PollingMoreWitnesses.

Import Polling.

Lemma connected_set_only_by_refresh_witness :
  let rf := fun _ : nat => mkRefresh [("speed", PInt 160)] 5 Returns in
  let s := mkSys (mk (DataConnector.new RESTDataConnectorC)
                    (mkThread (Some RunLoop) None (Some true)
                       (Alive (PRefresh 1000000000 0)))
                    "127.0.0.1" true false)
             0 [] 1 Idle [] [] in
  LoopT = LoopT
  /\ exists target n,
       run_state (th (obj s)) = Alive (PRefresh target n)
       /\ r_outcome (rf n) = Returns.
Proof.
  intros rf s.
  exact (connected_set_only_by_refresh no_subclass rf s LoopT eq_refl eq_refl).
Defined.

Lemma failing_refresh_witness :
  let rf := fun _ : nat => mkRefresh [] 5 (Raises (APIConnectionError "timed out")) in
  let s := mkSys (mk (DataConnector.new RESTDataConnectorC)
                    (mkThread (Some RunLoop) None (Some true) (Alive (PWhile 0)))
                    "127.0.0.1" true false)
             0 [] 0 Idle [] [] in
  ncalls (exec no_subclass rf (repeat LoopT (2 * 3)) s) = 3%nat
  /\ count_sleeps (trace (exec no_subclass rf (repeat LoopT (2 * 3)) s)) = 0%nat.
Proof.
  intros rf s.
  pose proof (failing_refresh_is_retried_without_pause no_subclass rf 3 s
                (fun _ => ex_intro _ "timed out" eq_refl) eq_refl eq_refl) as H.
  exact (conj (proj1 (proj2 H)) (proj1 (proj2 (proj2 (proj2 H))))).
Defined.

Lemma refresh_stores_reach_load_witness :
  let rf := fun _ : nat =>
              mkRefresh [("speed", PInt 160)] 5 (Raises (APIConnectionError "timed out")) in
  let s := mkSys (mk (DataConnector.new RESTDataConnectorC)
                    (mkThread (Some RunLoop) None (Some true)
                       (Alive (PRefresh 1000000000 0)))
                    "127.0.0.1" true false)
             0 [] 1 Idle [] [] in
  DataConnector.load (dc (obj (loop_step no_subclass rf s))) "speed" PNone = Ok (PInt 160).
Proof.
  intros rf s.
  refine (refresh_stores_reach_load no_subclass rf s 1000000000%Z 0%nat "speed" PNone eq_refl _).
  discriminate.
Defined.

Lemma stop_keeps_the_cache_witness :
  let rf := fun _ : nat => mkRefresh [] 5 Returns in
  let o := mk (DataConnector.store (DataConnector.new RESTDataConnectorC) "speed" (PInt 160))
              (mkThread (Some RunLoop) None (Some true) (Finished None))
              "127.0.0.1" false true in
  dc (obj (exec no_subclass rf (repeat MainT 3) (mkSys o 0 [] 0 (InStop StopClear) [] []))) = dc o.
Proof.
  intros rf o.
  exact (proj1 (proj2 (proj2
           (stop_keeps_the_cache no_subclass rf (mkSys o 0 [] 0 (InStop StopClear) [] [])
              eq_refl eq_refl)))).
Defined.

Lemma reset_discards_the_cache_witness :
  let rf := fun _ : nat => mkRefresh [] 5 Returns in
  let o := mk (DataConnector.store (DataConnector.new RESTDataConnectorC) "speed" (PInt 160))
              (mkThread (Some RunLoop) None (Some true) (Finished None))
              "127.0.0.1" false true in
  DataConnector.load
    (dc (obj (exec no_subclass rf (repeat MainT 7)
                (mkSys o 0 [] 0 (InReset (ResetStop StopClear)) [] []))))
    "speed" PNone = Ok PNone.
Proof.
  intros rf o.
  refine (proj1 (proj2
            (reset_discards_the_cache no_subclass rf
               (mkSys o 0 [] 0 (InReset (ResetStop StopClear)) [] [])
               "speed" PNone eq_refl eq_refl _))).
  discriminate.
Defined.

End PollingMoreWitnesses.

(** ** Station and Train *)

Section StationProps.

Import Station.

Variable c2d : Q * Q -> Q * Q -> result Q.

Lemma Qle_bool_false (a b : Q) : Qle_bool a b = false -> (b < a)%Q.
Proof.
  intros H. apply Qnot_le_lt. intros Hle.
  apply Qle_bool_iff in Hle. congruence.
Qed.

(** Between two stations that both know their distance from the start,
    the distance is the absolute difference of the two: never negative,
    the same from either side, and zero between stations equally far
    along. *)
Theorem Station_distance_is_symmetric (s1 s2 : t) (d1 d2 : Q) :
  distance s1 = Some d1 ->
  distance s2 = Some d2 ->
  exists r12 r21,
    calculate_distance c2d s1 (OfStation s2) = Ok (Some r12)
    /\ calculate_distance c2d s2 (OfStation s1) = Ok (Some r21)
    /\ (r12 == r21)%Q
    /\ (0 <= r12)%Q
    /\ (r12 == d1 - d2 \/ r12 == d2 - d1)%Q
    /\ (d1 == d2 -> r12 == 0)%Q.
Proof.
  intros H1 H2. unfold calculate_distance, resolve. rewrite H1, H2.
  eexists _, _. split; [reflexivity|]. split; [reflexivity|].
  destruct (Qle_bool 0 (d1 - d2)) eqn:E12; destruct (Qle_bool 0 (d2 - d1)) eqn:E21;
    try apply Qle_bool_iff in E12; try apply Qle_bool_iff in E21;
    try apply Qle_bool_false in E12; try apply Qle_bool_false in E21;
    cbv beta iota;
    (split; [lra|]); (split; [lra|]);
    (split; [first [left; reflexivity | right; reflexivity]|]);
    intros Heq; lra.
Qed.

(** When the other station does not know its distance from the start,
    the answer is [None], whether or not the two stations have
    positions: the position taken in its place is not a number and not
    a tuple, and no branch handles it. *)
Theorem Station_distance_needs_other_distance (self other : t) :
  distance other = None ->
  calculate_distance c2d self (OfStation other) = Ok None.
Proof.
  intros H. unfold calculate_distance, resolve. rewrite H.
  destruct (position other); reflexivity.
Qed.

(** A station that does not know its own distance cannot be measured
    against a number or against a station that knows its distance: the
    subtraction raises [TypeError]. Measured against a tuple of
    coordinates, a station without a position raises
    [AttributeError]. *)
Theorem Station_distance_needs_own_data (self other : t) (x lat lon : Q) :
  distance self = None ->
  position self = None ->
  distance other = Some x ->
  calculate_distance c2d self (OfNumber x) = Raise TypeError
  /\ calculate_distance c2d self (OfStation other) = Raise TypeError
  /\ calculate_distance c2d self (OfTuple lat lon) = Raise AttributeError.
Proof.
  intros Hd Hp Ho. unfold calculate_distance, resolve. rewrite Hd, Hp, Ho.
  repeat split.
Qed.

End StationProps.

Section StationWitnesses.

Import Station.

Lemma Station_distance_is_symmetric_witness :
  let a := mk (PStr "8000105") "Frankfurt" None None None None (Some 1000%Q) None in
  let b := mk (PStr "8000244") "Mannheim" None None None None (Some (145001 # 2)) None in
  exists r12 r21,
    calculate_distance (fun _ _ => Ok 0%Q) a (OfStation b) = Ok (Some r12)
    /\ calculate_distance (fun _ _ => Ok 0%Q) b (OfStation a) = Ok (Some r21)
    /\ (r12 == r21)%Q
    /\ (0 <= r12)%Q
    /\ (r12 == 1000 - (145001 # 2) \/ r12 == (145001 # 2) - 1000)%Q
    /\ (1000 == 145001 # 2 -> r12 == 0)%Q.
Proof.
  intros a b.
  exact (Station_distance_is_symmetric (fun _ _ => Ok 0%Q) a b 1000%Q (145001 # 2)%Q eq_refl eq_refl).
Defined.

Lemma Station_distance_needs_other_distance_witness :
  let p := Position.__init__ (501 # 10) (87 # 10) None None in
  let q := Position.__init__ (495 # 10) (85 # 10) None None in
  calculate_distance (fun _ _ => Ok 0%Q)
    (mk (PStr "8000105") "Frankfurt" None None None (Some p) (Some 1000%Q) None)
    (OfStation (mk (PStr "8000244") "Mannheim" None None None (Some q) None None))
  = Ok None.
Proof.
  intros p q.
  exact (Station_distance_needs_other_distance (fun _ _ => Ok 0%Q)
           (mk (PStr "8000105") "Frankfurt" None None None (Some p) (Some 1000%Q) None)
           (mk (PStr "8000244") "Mannheim" None None None (Some q) None None)
           eq_refl).
Defined.

Lemma Station_distance_needs_own_data_witness :
  calculate_distance (fun _ _ => Ok 0%Q)
    (mk (PStr "8000105") "Frankfurt" None None None None None None) (OfNumber 5%Q)
  = Raise TypeError.
Proof.
  exact (proj1 (Station_distance_needs_own_data (fun _ _ => Ok 0%Q)
           (mk (PStr "8000105") "Frankfurt" None None None None None None)
           (mk (PStr "8000244") "Mannheim" None None None None (Some 5%Q) None)
           5%Q 0%Q 0%Q eq_refl eq_refl eq_refl)).
Defined.

End StationWitnesses.

Section TrainProps.

Import Train.

(** The origin is the first and the destination the last station of
    the trip, in the order the stations were entered; a trip without
    stations has neither, and both raise [DataInvalidError]. *)
Theorem Train_origin_and_destination (cur : Station.t) (d : option Q)
    (p : option Position.t) (k : PyVal) (s : Station.t)
    (rest init : list (PyVal * Station.t)) :
  origin (mk [] cur d p) = Raise DataInvalidError
  /\ destination (mk [] cur d p) = Raise DataInvalidError
  /\ origin (mk ((k, s) :: rest) cur d p) = Ok s
  /\ destination (mk (init ++ [(k, s)])%list cur d p) = Ok s.
Proof.
  repeat split.
  unfold destination, station_list. cbn [stations].
  rewrite map_app. cbn [map snd].
  destruct (map snd init ++ [s])%list eqn:E.
  - destruct (map snd init); discriminate E.
  - rewrite <- E. unfold PositionOps.py_index.
    rewrite length_app. cbn [length].
    replace (-1 <? 0)%Z with true by reflexivity.
    replace (-1 + Z.of_nat (length (map snd init) + 1))%Z
      with (Z.of_nat (length (map snd init))) by lia.
    replace (0 <=? Z.of_nat (length (map snd init)))%Z with true
      by (symmetry; apply Z.leb_le; lia).
    replace (Z.of_nat (length (map snd init))
               <? Z.of_nat (length (map snd init) + 1))%Z with true
      by (symmetry; apply Z.ltb_lt; lia).
    cbn [andb]. rewrite Nat2Z.id.
    rewrite nth_error_app2 by lia. rewrite Nat.sub_diag. reflexivity.
Qed.

(** A train that is some way along measures its distance to a station
    that knows its own as the absolute difference of the two. *)
Theorem Train_distance_to_station (c2d : Q * Q -> Q * Q -> result Q)
    (tr : t) (st : Station.t) (d ds : Q) :
  distance tr = Some d ->
  ~ (d == 0)%Q ->
  Station.distance st = Some ds ->
  exists r,
    calculate_distance c2d tr st = Ok (Some r)
    /\ (0 <= r)%Q
    /\ (r == ds - d \/ r == d - ds)%Q.
Proof.
  intros Hd Hnz Hs. unfold calculate_distance, distance_or_position.
  rewrite Hd.
  destruct (Qeq_bool d 0) eqn:E; [apply Qeq_bool_iff in E; contradiction|].
  cbn [negb]. unfold Station.calculate_distance. cbn [Station.resolve]. rewrite Hs.
  eexists. split; [reflexivity|].
  destruct (Qle_bool 0 (ds - d)) eqn:E1.
  - apply Qle_bool_iff in E1. split; [exact E1 | left; reflexivity].
  - apply Qle_bool_false in E1. split; [lra | right; reflexivity].
Qed.

(** A train at distance zero, or without a distance, is measured by its
    position in its place, and [Station.calculate_distance] has no
    branch for a position: the answer is [None], for every station. *)
Theorem Train_distance_at_start (c2d : Q * Q -> Q * Q -> result Q)
    (tr : t) (st : Station.t) :
  distance tr = None \/ (exists d, distance tr = Some d /\ (d == 0)%Q) ->
  calculate_distance c2d tr st = Ok None.
Proof.
  intros H. unfold calculate_distance, distance_or_position.
  destruct H as [-> | (d & -> & Hz)].
  - destruct (position tr); reflexivity.
  - apply Qeq_bool_iff in Hz. rewrite Hz. cbn [negb].
    destruct (position tr); reflexivity.
Qed.

End TrainProps.

Section TrainWitnesses.

Import Train.

Lemma Train_distance_to_station_witness :
  let st := Station.mk (PStr "8000244") "Mannheim" None None None None
              (Some (145001 # 2)) None in
  exists r,
    calculate_distance (fun _ _ => Ok 0%Q) (mk [] st (Some 1000%Q) None) st = Ok (Some r)
    /\ (0 <= r)%Q
    /\ (r == (145001 # 2) - 1000 \/ r == 1000 - (145001 # 2))%Q.
Proof.
  intros st.
  refine (Train_distance_to_station (fun _ _ => Ok 0%Q)
            (mk [] st (Some 1000%Q) None) st 1000%Q (145001 # 2)%Q eq_refl _ eq_refl).
  intros H. vm_compute in H. discriminate H.
Defined.

Lemma Train_distance_at_start_witness :
  let st := Station.mk (PStr "8000244") "Mannheim" None None None None
              (Some (145001 # 2)) None in
  calculate_distance (fun _ _ => Ok 0%Q)
    (mk [] st (Some 0%Q) (Some (Position.__init__ (501 # 10) (87 # 10) None None))) st
  = Ok None.
Proof.
  intros st.
  refine (Train_distance_at_start (fun _ _ => Ok 0%Q)
            (mk [] st (Some 0%Q) (Some (Position.__init__ (501 # 10) (87 # 10) None None)))
            st (or_intror (ex_intro _ 0%Q (conj eq_refl _)))).
  reflexivity.
Defined.

End TrainWitnesses.

(** ** ConnectingTrain, rendered *)

Section ConnectingTrainProps.

Import LazyStation ConnectingTrainRender.

Variable fmt_opt : option string -> string.
Variable fmt : PyVal -> string.
Variable strftime_HM : Z -> string.


(** With a departure whose actual value is a datetime and with a
    platform, rendering succeeds. *)
Theorem ConnectingTrain_str_complete (ct : ConnectingTrain)
    (dep pl : ScheduledEvent.t) (t : Z) :
  departure ct = Some dep ->
  ScheduledEvent.actual dep = PDatetime t ->
  platform ct = Some pl ->
  is_ok (__str__ fmt_opt fmt strftime_HM ct) = true.
Proof.
  intros Hd Ha Hp. unfold __str__. rewrite Hd, Ha, Hp. reflexivity.
Qed.

End ConnectingTrainProps.

Section ConnectingTrainWitnesses.

Import LazyStation ConnectingTrainRender.


Lemma ConnectingTrain_str_complete_witness :
  is_ok (__str__ (fun _ => "ICE") (fun _ => "7") (fun _ => "12:30")
           (mkTrain (Some "ICE") (Some "71")
              (Some (ScheduledEvent.new1 (PStr "7"))) (Some "Basel")
              (Some (ScheduledEvent.new1 (PDatetime 45000))))) = true.
Proof.
  exact (ConnectingTrain_str_complete (fun _ => "ICE") (fun _ => "7") (fun _ => "12:30")
           (mkTrain (Some "ICE") (Some "71")
              (Some (ScheduledEvent.new1 (PStr "7"))) (Some "Basel")
              (Some (ScheduledEvent.new1 (PDatetime 45000))))
           (ScheduledEvent.new1 (PDatetime 45000)) (ScheduledEvent.new1 (PStr "7"))
           45000 eq_refl eq_refl eq_refl).
Defined.

End ConnectingTrainWitnesses.

(** ** _LazyStation, failing and new *)

Section LazyMoreProps.

Import LazyStation.

(** When the callback raises during a read, the exception reaches the
    reader and the station is left exactly as it was; so every later
    read invokes the callback again. *)
Theorem lazy_failure_is_retried (self : t) (f : LazyFunc) (w : World) (e : PyExc)
    (d : Q) :
  _lazy_func self = Some f ->
  (_cache_valid_until self < clock w)%Q \/ _connections self = None ->
  f (_id self) (length (calls w)) = mkFetched (Raise e) d ->
  connections self w
    = (Raise e, self, mkWorld (clock w + d) (_id self :: calls w))
  /\ (forall w', (clock w <= clock w')%Q ->
        calls (snd (connections self w')) = _id self :: calls w').
Proof.
  intros Hf Hfirst Hcall.
  assert (Hfetch : forall w', (clock w <= clock w')%Q ->
                     connections self w' = request_data f self w').
  { intros w' Hle. unfold connections. rewrite Hf.
    destruct (Qgtb (clock w') (_cache_valid_until self)) eqn:E; [reflexivity|].
    destruct Hfirst as [Hlt | ->]; [|reflexivity].
    apply Qgtb_false in E. exfalso.
    apply (Qlt_irrefl (clock w)).
    eapply Qle_lt_trans; [exact Hle|]. eapply Qle_lt_trans; [exact E | exact Hlt]. }
  split.
  - rewrite (Hfetch w (Qle_refl _)). unfold request_data. rewrite Hcall. reflexivity.
  - intros w' Hle. rewrite (Hfetch w' Hle). apply request_data_calls.
Qed.

Lemma lazy_failure_is_retried_witness :
  let f : LazyFunc := fun _ _ => mkFetched (Raise (APIConnectionError "down")) 1 in
  let st := __init__ (PStr "8000105") "Frankfurt" None (Some f) 60 in
  connections st (mkWorld 1000 [])
  = (Raise (APIConnectionError "down"), st, mkWorld (1000 + 1) [PStr "8000105"]).
Proof.
  intros f st.
  exact (proj1 (lazy_failure_is_retried st f (mkWorld 1000 [])
                  (APIConnectionError "down") 1 eq_refl (or_intror eq_refl) eq_refl)).
Defined.

(** A new lazy station with a callback starts with its cache expired:
    read at any time after the epoch, it invokes the callback, also
    when connections were handed to the constructor, and what the
    callback returns replaces them. *)
Theorem lazy_first_read_fetches (station_id : PyVal) (name : string)
    (given : Connections) (f : LazyFunc) (timeout : Z) (w : World)
    (cs : Connections) (d : Q) :
  (0 < clock w)%Q ->
  f station_id (length (calls w)) = mkFetched (Ok cs) d ->
  exists s1,
    connections (__init__ station_id name given (Some f) timeout) w
      = (Ok cs, s1, mkWorld (clock w + d) (station_id :: calls w))
    /\ _connections s1 = cs
    /\ _cache_valid_until s1 = (clock w + d + inject_Z timeout)%Q.
Proof.
  intros Hpos Hcall. unfold connections, __init__.
  cbn [_lazy_func _cache_valid_until].
  apply Qgtb_true in Hpos. rewrite Hpos.
  unfold request_data. cbn [_id]. rewrite Hcall.
  eexists. split; [reflexivity|]. split; reflexivity.
Qed.

Lemma lazy_first_read_fetches_witness :
  let f : LazyFunc := fun _ _ => mkFetched (Ok (Some [])) 2 in
  exists s1,
    connections (__init__ (PStr "8000105") "Frankfurt"
                   (Some [mkTrain (Some "ICE") None None None None]) (Some f) 60)
                (mkWorld 1000 [])
      = (Ok (Some []), s1, mkWorld (1000 + 2) [PStr "8000105"])
    /\ _connections s1 = Some []
    /\ _cache_valid_until s1 = (1000 + 2 + inject_Z 60)%Q.
Proof.
  intros f.
  exact (lazy_first_read_fetches (PStr "8000105") "Frankfurt"
           (Some [mkTrain (Some "ICE") None None None None]) f 60
           (mkWorld 1000 []) (Some []) 2 eq_refl eq_refl).
Defined.

End LazyMoreProps.
